(** * Foodgram backend: recipes/models.py and api/views.py

    A shallow embedding of the data model ([backend/recipes/models.py]) and
    of the views ([backend/api/views.py]) that toggle memberships
    (favourites, shopping list, follows) and export the shopping cart,
    followed by the properties established about them.

    Conventions.
    - Python [int] is [Z]; [str] is [string] (a byte string, UTF-8).
    - A database table whose rows are created and deleted one by one is a
      finite map from the primary key [id] to the row, so that the
      primary-key constraint is part of the type.
    - A Python [dict] that is iterated is an association list in insertion
      order with unique keys.
    - A view is a function of the database; a view that writes returns the
      new database next to its outcome. *)

From Stdlib Require Import ZArith Ascii String.
From stdpp Require Import gmap strings list fin_maps pretty infinite.

Open Scope Z_scope.

(** ** Python values used by the views *)

(** ['\n'] *)
Definition newline : string := String (ascii_of_nat 10) EmptyString.

(** The double-quote character, as it occurs inside the header value. *)
Definition dquote : string := String (ascii_of_nat 34) EmptyString.

(** [str(n)] / [f'{n}'] for a Python [int]. *)
Definition str_int (n : Z) : string := pretty n.

(** ** recipes/models.py *)

Module validators.

(** [django.core.validators.MinValueValidator(limit_value, message)]:
    calling it on [value] raises [ValidationError(message)] exactly when
    [value < limit_value]. *)
Record MinValueValidator := {
  limit_value : Z;
  message : string
}.

Inductive ValidationError := Invalid (msg : string).

Definition call (v : MinValueValidator) (value : Z) : option ValidationError :=
  if value <? limit_value v then Some (Invalid (message v)) else None.

(** [Field.run_validators(value)]: every validator of the field is called
    and the errors are collected; the value is rejected when the
    collection is not empty. *)
Definition run_validators (vs : list MinValueValidator) (value : Z)
  : list ValidationError :=
  omap (fun v => call v value) vs.

End validators.

Module Ingredient.
Record t := {
  name : string;
  measurement_unit : string
}.
End Ingredient.

Module Recipe.
(** The columns of the recipe row.  The many-to-many fields [ingredients]
    and [tags] live in join tables of their own and are read by none of
    the views modelled here. *)
Record t := {
  author : Z;
  image : string;
  name : string;
  text : string;
  cooking_time : Z
}.

(** [validators=[validators.MinValueValidator(1, message=...)]].  The range
    validators that [PositiveSmallIntegerField] adds on its own depend on
    the database backend and can only reject further values; they are left
    out. *)
Definition cooking_time_validators : list validators.MinValueValidator :=
  [ {| validators.limit_value := 1;
       validators.message := "Мин. время приготовления 1 минута" |} ].
End Recipe.

Module IngredientAmount.
(** The join entity between a recipe and an ingredient; [api/views.py]
    imports it under the name [IngredientInRecipe]. *)
Record t := {
  ingredient : Z;
  recipe : Z;
  amount : Z
}.

Definition amount_validators : list validators.MinValueValidator :=
  [ {| validators.limit_value := 1;
       validators.message := "Мин. количество ингридиентов 1" |} ].
End IngredientAmount.

(** Modelled from the spec: [CustomUser], the user identity table, which
    [api/views.py] imports from [recipes.models] but which the available
    [models.py] does not declare ("a user identity table owned by an
    external authentication collaborator"). *)
Module CustomUser.
Record t := {
  username : string
}.
End CustomUser.

(** Modelled from the spec: [Favorite] and [ShoppingList], imported by
    [api/views.py] and not declared in the available [models.py].  A
    ShoppingListEntry "associates a user with a recipe"; a FavoriteEntry has
    the "same shape".  The views address the two columns as [user] and
    [recipe]. *)
Module RecipeMark.
Record t := {
  user : Z;
  recipe : Z
}.
End RecipeMark.

(** Modelled from the spec: [Follow], imported by [api/views.py] and not
    declared in the available [models.py]: "associates a following user
    with a followed user (author)".  The views address the two columns as
    [user] and [author]. *)
Module Follow.
Record t := {
  user : Z;
  author : Z
}.
End Follow.

(** The persistent store: one table per model.  The rows of the
    ingredient-amount table are kept in the order in which the database
    hands them to a query. *)
Record DB := {
  user_table : gmap Z CustomUser.t;
  ingredient_table : gmap Z Ingredient.t;
  recipe_table : gmap Z Recipe.t;
  ingredient_in_recipe_table : list IngredientAmount.t;
  favorite_table : gmap Z RecipeMark.t;
  shopping_list_table : gmap Z RecipeMark.t;
  follow_table : gmap Z Follow.t
}.

(** [request.user] of an authenticated request ([IsAuthenticated] has
    already let the request through): the primary key of the user. *)
Record Request := {
  user : Z
}.

(** ** Insertion-ordered dictionaries

    [upsert k init upd d] is the Python idiom
    [[
      if k not in d: d[k] = init
      else:          d[k] = upd(d[k])
    ]]
    on a dictionary that remembers insertion order. *)
Section Dict.
Context {K V : Type} `{EqDecision K}.

Fixpoint upsert (k : K) (init : V) (upd : V -> V) (d : list (K * V))
  : list (K * V) :=
  match d with
  | [] => [(k, init)]
  | (k', v) :: d' =>
      if decide (k' = k) then (k', upd v) :: d'
      else (k', v) :: upsert k init upd d'
  end.

(** [d.get(k)] *)
Fixpoint dict_get (k : K) (d : list (K * V)) : option V :=
  match d with
  | [] => None
  | (k', v) :: d' => if decide (k' = k) then Some v else dict_get k d'
  end.

End Dict.

(** ** api/views.py: DownloadShoppingCart *)

(** [django.http.HttpResponse].  [content] is the body, the chunks of the
    iterable passed to the constructor joined together; [chunks] keeps the
    iterable itself. *)
Record HttpResponse := {
  chunks : list string;
  content : string;
  headers : gmap string string;
  status_code : Z
}.

(** [HttpResponse(content, content_type)]: the second positional argument
    of the constructor is [content_type], and the constructor stores it as
    it is given under the header [Content-Type]; the status defaults to
    200. *)
Definition HttpResponse_init (body : list string) (content_type : string)
  : HttpResponse :=
  {| chunks := body;
     content := foldr String.append EmptyString body;
     headers := {[ "Content-Type"%string := content_type ]};
     status_code := 200 |}.

(** [response[header] = value] *)
Definition setitem (response : HttpResponse) (header value : string)
  : HttpResponse :=
  {| chunks := chunks response;
     content := content response;
     headers := <[ header := value ]> (headers response);
     status_code := status_code response |}.

Module DownloadShoppingCart.

(** A row of [ingredients.values('ingredient', 'ingredient__name',
    'ingredient__measurement_unit')], with the annotation [amount]. *)
Record ValuesRow := {
  ingredient : Z;
  ingredient__name : string;
  ingredient__measurement_unit : string;
  amount : Z
}.

(** The value stored under a name in [buying_list]. *)
Record Entry := {
  measurement_unit : string;
  entry_amount : Z
}.

(** [request.user.purchases.values_list('recipe__id')]: the recipe of
    every shopping-list row of the user. *)
Definition purchases (db : DB) (u : Z) : list Z :=
  RecipeMark.recipe <$>
    filter (fun m => RecipeMark.user m = u)
           (snd <$> map_to_list (shopping_list_table db)).

(** [IngredientInRecipe.objects.filter(recipe__in=recipe_id)] *)
Definition filter_recipe_in (db : DB) (recipe_id : list Z)
  : list IngredientAmount.t :=
  filter (fun r => IngredientAmount.recipe r ∈ recipe_id)
         (ingredient_in_recipe_table db).

(** [.values(...)]: each row joined with the ingredient its foreign key
    names (an inner join: a row without its ingredient yields nothing). *)
Definition values (db : DB) (rows : list IngredientAmount.t)
  : list ValuesRow :=
  omap (fun r =>
          match ingredient_table db !! IngredientAmount.ingredient r with
          | Some i =>
              Some {| ingredient := IngredientAmount.ingredient r;
                      ingredient__name := Ingredient.name i;
                      ingredient__measurement_unit :=
                        Ingredient.measurement_unit i;
                      amount := IngredientAmount.amount r |}
          | None => None
          end) rows.

(** The columns named in [values(...)], which [annotate] groups by. *)
Definition group_key (r : ValuesRow) : Z * string * string :=
  (ingredient r, ingredient__name r, ingredient__measurement_unit r).

(** [.annotate(amount=Sum('amount'))] after [values(...)]: one row per
    distinct value of the [values] columns, carrying the sum of [amount]
    over the group.  The query does not fix the order in which the
    database returns the groups; here they come in the order of their
    first row. *)
Definition annotate_sum (rows : list ValuesRow) : list ValuesRow :=
  (fun '(k, a) =>
     {| ingredient := k.1.1;
        ingredient__name := k.1.2;
        ingredient__measurement_unit := k.2;
        amount := a |}) <$>
  foldl (fun gs r => upsert (group_key r) (amount r)
                            (fun a => a + amount r) gs) [] rows.

(** The queryset the [for] loop iterates.  ([print(ingredients)] writes it
    to the standard output of the server and has no part in the
    response.) *)
Definition ingredients (db : DB) (request : Request) : list ValuesRow :=
  let recipe_id := purchases db (user request) in
  let ingredients := filter_recipe_in db recipe_id in
  let ingredients := values db ingredients in
  annotate_sum ingredients.

(** The body of [for ingredient in ingredients]. *)
Definition loop_body (buying_list : list (string * Entry))
    (ingredient : ValuesRow) : list (string * Entry) :=
  let amount := amount ingredient in
  let name := ingredient__name ingredient in
  let measurement_unit := ingredient__measurement_unit ingredient in
  upsert name
    {| measurement_unit := measurement_unit; entry_amount := amount |}
    (fun e => {| measurement_unit := DownloadShoppingCart.measurement_unit e;
                 entry_amount := entry_amount e + amount |})
    buying_list.

Definition buying_list (db : DB) (request : Request)
  : list (string * Entry) :=
  foldl loop_body [] (ingredients db request).

(** [f'{item} - {buying_list[item]["amount"]} '
     f'{buying_list[item]["measurement_unit"]} \n'] *)
Definition item_line (item : string) (e : Entry) : string :=
  item +:+ " - " +:+ str_int (entry_amount e) +:+ " "
       +:+ measurement_unit e +:+ " " +:+ newline.

Definition footer : string := "FoodGram | kirilyuk.surgut@yandex.ru | 2022".

Definition wishlist (db : DB) (request : Request) : list string :=
  ((fun '(item, e) => item_line item e) <$> buying_list db request)
    ++ [newline] ++ [footer].

Definition get (db : DB) (request : Request) : HttpResponse :=
  let response :=
    HttpResponse_init (wishlist db request) "Content-Type: text/plain" in
  setitem response "Content-Disposition"
    ("attachment; filename=" +:+ dquote +:+ "wishlist.txt" +:+ dquote).

End DownloadShoppingCart.

Module Examples.
Import DownloadShoppingCart.

Definition empty_db : DB :=
  {| user_table := ∅; ingredient_table := ∅; recipe_table := ∅;
     ingredient_in_recipe_table := [];
     favorite_table := ∅; shopping_list_table := ∅; follow_table := ∅ |}.

Definition mk_row (i r a : Z) : IngredientAmount.t :=
  {| IngredientAmount.ingredient := i; IngredientAmount.recipe := r;
     IngredientAmount.amount := a |}.

Definition a_recipe (n : string) : Recipe.t :=
  {| Recipe.author := 1; Recipe.image := "recipes/x.png"; Recipe.name := n;
     Recipe.text := ""; Recipe.cooking_time := 10 |}.

Definition salt_g : Ingredient.t :=
  {| Ingredient.name := "salt"; Ingredient.measurement_unit := "g" |}.

Definition salt_kg : Ingredient.t :=
  {| Ingredient.name := "salt"; Ingredient.measurement_unit := "kg" |}.

Definition flour_g : Ingredient.t :=
  {| Ingredient.name := "flour"; Ingredient.measurement_unit := "g" |}.

Definition mark (u r : Z) : RecipeMark.t :=
  {| RecipeMark.user := u; RecipeMark.recipe := r |}.

(** User 1 has recipes 10 and 11 on the shopping list.  Both use
    ingredient 1, 1 g in the soup and 2 g in the bread.  The bread also
    uses 5 kg of ingredient 2, another record whose display name is
    "salt" as well. *)
Definition salt_db : DB :=
  {| user_table := {[ 1 := {| CustomUser.username := "u" |} ]};
     ingredient_table := {[ 1 := salt_g; 2 := salt_kg ]};
     recipe_table := {[ 10 := a_recipe "soup"; 11 := a_recipe "bread" ]};
     ingredient_in_recipe_table :=
       [ mk_row 1 10 1; mk_row 1 11 2; mk_row 2 11 5 ];
     favorite_table := ∅;
     shopping_list_table := {[ 1 := mark 1 10; 2 := mark 1 11 ]};
     follow_table := ∅ |}.

(** User 1 has the single recipe 10 on the shopping list; it uses 3 g of
    ingredient 1 and 5 kg of ingredient 2, two records with the display
    name "salt". *)
Definition namesake_db : DB :=
  {| user_table := {[ 1 := {| CustomUser.username := "u" |} ]};
     ingredient_table := {[ 1 := salt_g; 2 := salt_kg ]};
     recipe_table := {[ 10 := a_recipe "brine" ]};
     ingredient_in_recipe_table := [ mk_row 1 10 3; mk_row 2 10 5 ];
     favorite_table := ∅;
     shopping_list_table := {[ 1 := mark 1 10 ]};
     follow_table := ∅ |}.

(** User 1 has recipes 10 and 11 on the shopping list.  Both use
    ingredient 1 ("salt", g), with 1 and 2; recipe 11 also uses 300 g of
    flour.  No two ingredient records share a display name. *)
Definition plain_db : DB :=
  {| user_table := {[ 1 := {| CustomUser.username := "u" |} ]};
     ingredient_table := {[ 1 := salt_g; 3 := flour_g ]};
     recipe_table := {[ 10 := a_recipe "soup"; 11 := a_recipe "bread" ]};
     ingredient_in_recipe_table :=
       [ mk_row 1 10 1; mk_row 3 11 300; mk_row 1 11 2 ];
     favorite_table := ∅;
     shopping_list_table := {[ 1 := mark 1 10; 2 := mark 1 11 ]};
     follow_table := ∅ |}.

(** User 1 has the single recipe 11 on the shopping list; it uses 300 g
    of flour. *)
Definition flour_db : DB :=
  {| user_table := {[ 1 := {| CustomUser.username := "u" |} ]};
     ingredient_table := {[ 3 := flour_g ]};
     recipe_table := {[ 11 := a_recipe "bread" ]};
     ingredient_in_recipe_table := [ mk_row 3 11 300 ];
     favorite_table := ∅;
     shopping_list_table := {[ 1 := mark 1 11 ]};
     follow_table := ∅ |}.

Definition user1 : Request := {| user := 1 |}.

End Examples.

(** ** The ORM operations used by the membership views *)

Inductive Exception :=
| Http404
| MultipleObjectsReturned.

(** A database action: it runs against the store and either yields a value
    or raises, and hands back the store. *)
Definition ORM (A : Type) : Type := DB -> (A + Exception) * DB.

Global Instance ORM_ret : MRet ORM :=
  fun A (a : A) db => (inl a, db).

Global Instance ORM_bind : MBind ORM :=
  fun A B (f : A -> ORM B) (m : ORM A) db =>
    match m db with
    | (inl a, db') => f a db'
    | (inr e, db') => (inr e, db')
    end.

(** A model class: where its table sits in the store. *)
Record Model (Row : Type) := {
  objects : DB -> gmap Z Row;
  with_objects : gmap Z Row -> DB -> DB
}.
Arguments objects {Row} _ _.
Arguments with_objects {Row} _ _ _.

Section Manager.
Context {Row : Type}.

(** [Model.objects.filter(...)]: the rows, with their primary keys,
    that satisfy the lookup. *)
Definition objects_filter (P : Z * Row -> Prop) `{!forall x, Decision (P x)}
    (t : gmap Z Row) : gmap Z Row :=
  filter P t.

(** [queryset.exists()] *)
Definition queryset_exists (q : gmap Z Row) : bool :=
  match map_to_list q with
  | [] => false
  | _ :: _ => true
  end.

(** [queryset.get()]: the single row of the queryset; [None] stands for
    [DoesNotExist]; more than one row raises [MultipleObjectsReturned]. *)
Definition queryset_get (q : gmap Z Row) : option (Z * Row) + Exception :=
  match map_to_list q with
  | [] => inl None
  | [obj] => inl (Some obj)
  | _ :: _ :: _ => inr MultipleObjectsReturned
  end.

(** [get_object_or_404(Model, lookup...)]: [DoesNotExist] becomes
    [Http404]; anything else [get] raises goes through. *)
Definition get_object_or_404 (M : Model Row) (P : Z * Row -> Prop)
    `{!forall x, Decision (P x)} : ORM (Z * Row) :=
  fun db =>
    match queryset_get (objects_filter P (objects M db)) with
    | inl (Some obj) => (inl obj, db)
    | inl None => (inr Http404, db)
    | inr e => (inr e, db)
    end.

(** [Model.objects.filter(lookup...).exists()] *)
Definition filter_exists (M : Model Row) (P : Z * Row -> Prop)
    `{!forall x, Decision (P x)} : ORM bool :=
  fun db => (inl (queryset_exists (objects_filter P (objects M db))), db).

(** [Model.objects.create(fields...)]: the row is inserted under a primary
    key the table does not use yet. *)
Definition objects_create (M : Model Row) (r : Row) : ORM (Z * Row) :=
  fun db =>
    let pk := fresh (dom (objects M db)) in
    (inl (pk, r), with_objects M (<[ pk := r ]> (objects M db)) db).

(** [obj.delete()]: the row with the primary key of [obj] goes. *)
Definition instance_delete (M : Model Row) (obj : Z * Row) : ORM unit :=
  fun db => (inl tt, with_objects M (delete obj.1 (objects M db)) db).

(** Python truth value of a model instance: the class defines neither
    [__bool__] nor [__len__], so every instance is true. *)
Definition truth (obj : Z * Row) : bool := true.

End Manager.

Definition CustomUser_model : Model CustomUser.t :=
  {| objects := user_table;
     with_objects := fun t db =>
       {| user_table := t; ingredient_table := ingredient_table db;
          recipe_table := recipe_table db;
          ingredient_in_recipe_table := ingredient_in_recipe_table db;
          favorite_table := favorite_table db;
          shopping_list_table := shopping_list_table db;
          follow_table := follow_table db |} |}.

Definition Recipe_model : Model Recipe.t :=
  {| objects := recipe_table;
     with_objects := fun t db =>
       {| user_table := user_table db; ingredient_table := ingredient_table db;
          recipe_table := t;
          ingredient_in_recipe_table := ingredient_in_recipe_table db;
          favorite_table := favorite_table db;
          shopping_list_table := shopping_list_table db;
          follow_table := follow_table db |} |}.

Definition Favorite_model : Model RecipeMark.t :=
  {| objects := favorite_table;
     with_objects := fun t db =>
       {| user_table := user_table db; ingredient_table := ingredient_table db;
          recipe_table := recipe_table db;
          ingredient_in_recipe_table := ingredient_in_recipe_table db;
          favorite_table := t;
          shopping_list_table := shopping_list_table db;
          follow_table := follow_table db |} |}.

Definition ShoppingList_model : Model RecipeMark.t :=
  {| objects := shopping_list_table;
     with_objects := fun t db =>
       {| user_table := user_table db; ingredient_table := ingredient_table db;
          recipe_table := recipe_table db;
          ingredient_in_recipe_table := ingredient_in_recipe_table db;
          favorite_table := favorite_table db;
          shopping_list_table := t;
          follow_table := follow_table db |} |}.

Definition Follow_model : Model Follow.t :=
  {| objects := follow_table;
     with_objects := fun t db =>
       {| user_table := user_table db; ingredient_table := ingredient_table db;
          recipe_table := recipe_table db;
          ingredient_in_recipe_table := ingredient_in_recipe_table db;
          favorite_table := favorite_table db;
          shopping_list_table := shopping_list_table db;
          follow_table := t |} |}.

(** The two classes the views pass as [acted_model]. *)
Inductive ActedModel := Favorite | ShoppingList.

Global Instance ActedModel_eq_dec : EqDecision ActedModel.
Proof. solve_decision. Defined.

Definition acted (m : ActedModel) : Model RecipeMark.t :=
  match m with
  | Favorite => Favorite_model
  | ShoppingList => ShoppingList_model
  end.

(** ** api/views.py: the membership views *)

(** [rest_framework.status] *)
Definition HTTP_201_CREATED : Z := 201.
Definition HTTP_204_NO_CONTENT : Z := 204.
Definition HTTP_400_BAD_REQUEST : Z := 400.
Definition HTTP_404_NOT_FOUND : Z := 404.

(** What a [Response] carries: a message, or the [.data] of one of the
    serializers of [api/serializers.py] applied to an object. *)
Inductive Data :=
| Message (s : string)
| ShowFollowersSerializer (author : Z * CustomUser.t)
| AddFavouriteRecipeSerializer (recipe : Z * Recipe.t)
| NotFoundDetail.

Record Response := {
  data : Data;
  status : Z
}.

(** The responses the views build from constants. *)
Definition already_added : Response :=
  {| data := Message "Рецепт уже добавлен"; status := HTTP_400_BAD_REQUEST |}.

Definition not_added : Response :=
  {| data := Message "Рецепт не был добавлен";
     status := HTTP_400_BAD_REQUEST |}.

Definition already_following : Response :=
  {| data := Message "Вы уже подписаны"; status := HTTP_400_BAD_REQUEST |}.

Definition deleted : Response :=
  {| data := Message "Удалено"; status := HTTP_204_NO_CONTENT |}.

(** The response the framework makes of [Http404]. *)
Definition not_found : Response :=
  {| data := NotFoundDetail; status := HTTP_404_NOT_FOUND |}.

(** Lookups, as the keyword arguments of [filter] and [get] spell them. *)
Definition by_id {Row} (id : Z) (x : Z * Row) : Prop := x.1 = id.

Definition by_user_recipe (u recipe : Z) (x : Z * RecipeMark.t) : Prop :=
  RecipeMark.user x.2 = u /\ RecipeMark.recipe x.2 = recipe.

Definition by_user_author (u author : Z) (x : Z * Follow.t) : Prop :=
  Follow.user x.2 = u /\ Follow.author x.2 = author.

Global Instance by_id_dec {Row} id (x : Z * Row) : Decision (by_id id x).
Proof. unfold by_id. apply _. Defined.

Global Instance by_user_recipe_dec u r x : Decision (by_user_recipe u r x).
Proof. unfold by_user_recipe. apply _. Defined.

Global Instance by_user_author_dec u a x : Decision (by_user_author u a x).
Proof. unfold by_user_author. apply _. Defined.

Module FollowViewSet.

Definition post (request : Request) (user_id : Z) : ORM Response :=
  let user := user request in
  author ← get_object_or_404 CustomUser_model (by_id user_id);
  following ← filter_exists Follow_model (by_user_author user author.1);
  if following : bool then
    mret already_following
  else
    _ ← objects_create Follow_model
          {| Follow.user := user; Follow.author := author.1 |};
    mret {| data := ShowFollowersSerializer author;
            status := HTTP_201_CREATED |}.

Definition delete (request : Request) (user_id : Z) : ORM Response :=
  let user := user request in
  author ← get_object_or_404 CustomUser_model (by_id user_id);
  follow ← get_object_or_404 Follow_model (by_user_author user author.1);
  _ ← instance_delete Follow_model follow;
  mret deleted.

End FollowViewSet.

Definition get_post (request : Request) (recipe_id : Z)
    (acted_model : ActedModel) : ORM Response :=
  let user := user request in
  recipe ← get_object_or_404 Recipe_model (by_id recipe_id);
  added ← filter_exists (acted acted_model) (by_user_recipe user recipe.1);
  if added : bool then
    mret already_added
  else
    _ ← objects_create (acted acted_model)
          {| RecipeMark.user := user; RecipeMark.recipe := recipe.1 |};
    mret {| data := AddFavouriteRecipeSerializer recipe;
            status := HTTP_201_CREATED |}.

Definition get_delete (request : Request) (recipe_id : Z)
    (acted_model : ActedModel) : ORM Response :=
  let user := user request in
  recipe ← get_object_or_404 Recipe_model (by_id recipe_id);
  favorite_obj ←
    get_object_or_404 (acted acted_model) (by_user_recipe user recipe.1);
  if negb (truth favorite_obj) then
    mret not_added
  else
    _ ← instance_delete (acted acted_model) favorite_obj;
    mret deleted.

Module FavouriteViewSet.
Definition post (request : Request) (recipe_id : Z) : ORM Response :=
  get_post request recipe_id Favorite.
Definition delete (request : Request) (recipe_id : Z) : ORM Response :=
  get_delete request recipe_id Favorite.
End FavouriteViewSet.

Module ShoppingListViewSet.
Definition post (request : Request) (recipe_id : Z) : ORM Response :=
  get_post request recipe_id ShoppingList.
Definition delete (request : Request) (recipe_id : Z) : ORM Response :=
  get_delete request recipe_id ShoppingList.
End ShoppingListViewSet.

(** [APIView.dispatch]: the handler's response goes out as it is; [Http404]
    raised by the handler is turned into the 404 response by the
    framework's exception handler; any other exception is not handled
    there and leaves the view. *)
Definition dispatch (view : ORM Response) : ORM Response :=
  fun db =>
    match view db with
    | (inl r, db') => (inl r, db')
    | (inr Http404, db') =>
        (inl not_found, db')
    | (inr e, db') => (inr e, db')
    end.

(** ** Recipe creation *)

(** [Field.clean] for [cooking_time]: the declared validators are run on
    the value. *)
Definition clean_cooking_time (value : Z) : list validators.ValidationError :=
  validators.run_validators Recipe.cooking_time_validators value.

(** Modelled from the spec: the creation of a recipe, which the sources
    leave to [CreateRecipeSerializer] of [api/serializers.py] (not
    available): "recipe with cooking_time = 0 is rejected at creation
    (validation fails, minimum is 1)".  The submitted recipe is cleaned
    with the validators of the model field and is stored, under an unused
    primary key, only when they raise nothing. *)
Definition create_recipe (r : Recipe.t)
  : DB -> (list validators.ValidationError + Z * Recipe.t) * DB :=
  fun db =>
    match clean_cooking_time (Recipe.cooking_time r) with
    | [] =>
        match objects_create Recipe_model r db with
        | (inl obj, db') => (inr obj, db')
        | (inr _, db') => (inl [], db')
        end
    | errors => (inl errors, db)
    end.

(** ** recipes/models.py: Tag *)

Module Tag.

Definition ORANGE : string := "#E26C2D".
Definition GREEN : string := "#49B64E".
Definition PURPLE : string := "#8775D2".

Definition COLOR_CHOICES : list (string * string) :=
  [ (ORANGE, "Оранжевый"%string);
    (GREEN, "Зеленый"%string);
    (PURPLE, "Фиолетовый"%string) ].

Record t := {
  name : string;
  color : string;
  slug : string
}.

(** [Field.validate] for [color], a field with [choices] that is neither
    [null] nor [blank]: a value other than the empty string has to be the
    key of one of the choices, and the empty string is refused as blank.
    The result is the code of the error raised, if any.  (Every choice
    keeps within [max_length=7].) *)
Definition validate_color (value : string) : option string :=
  if decide (value = ""%string) then Some "blank"%string
  else if decide (value ∈ COLOR_CHOICES.*1) then None
  else Some "invalid_choice"%string.

(** [unique=True] on [name], [color] and [slug]: the constraints of the
    table. *)
Definition unique_on (f : t -> string) (table : gmap Z t) : Prop :=
  forall i j a b,
    table !! i = Some a -> table !! j = Some b -> f a = f b -> i = j.

Definition constraints (table : gmap Z t) : Prop :=
  unique_on name table /\ unique_on color table /\ unique_on slug table.

(** [__str__] *)
Definition str (tag : t) : string := name tag.

End Tag.

(** ** django.core.paginator.Paginator, as [PageNumberPagination] uses it

    [orphans] is 0 and [allow_empty_first_page] is true, the defaults. *)

Module Paginator.

Inductive InvalidPage := PageNotAnInteger | EmptyPage.

Definition count {A} (object_list : list A) : Z :=
  Z.of_nat (length object_list).

(** [ceil(hits / per_page)] with [hits = max(1, count - orphans)] *)
Definition num_pages {A} (object_list : list A) (per_page : Z) : Z :=
  let hits := Z.max 1 (count object_list - 0) in
  (hits + per_page - 1) / per_page.

(** [validate_number] on a number [int()] has accepted *)
Definition validate_number {A} (object_list : list A) (per_page number : Z)
  : Z + InvalidPage :=
  if number <? 1 then inr EmptyPage
  else if num_pages object_list per_page <? number then
    if number =? 1 then inl number else inr EmptyPage
  else inl number.

(** [object_list[bottom:top]] for [bottom] and [top] that are not
    negative *)
Definition slice {A} (l : list A) (bottom top : Z) : list A :=
  take (Z.to_nat top - Z.to_nat bottom) (drop (Z.to_nat bottom) l).

(** [page(number)], after [validate_number] *)
Definition page {A} (object_list : list A) (per_page number : Z) : list A :=
  let bottom := (number - 1) * per_page in
  let top := bottom + per_page in
  let top := if count object_list <=? top + 0 then count object_list
             else top in
  slice object_list bottom top.

End Paginator.

(** ** api/views.py: show_follows *)

(** What [request.query_params] holds under [page]. *)
Inductive PageParam :=
| NoPage                   (* no such parameter *)
| PageNumber (number : Z)  (* text that [int()] accepts *)
| LastPage                 (* the text "last" *)
| PageText.                (* any other text *)

(** The body of the paginated response.  [next] and [previous] stand for
    the links: the number of the page a link points to, or [None] where
    the response has [null]. *)
Record Paginated := {
  count : Z;
  next : option Z;
  previous : option Z;
  results : list (Z * CustomUser.t)
}.

Inductive APIException := NotFound.

Module ShowFollows.

(** Modelled from the spec: the reverse relation [following] of the
    [author] key of [Follow], which the available [models.py] does not
    declare ("List followed users").
    [CustomUser.objects.filter(following__user=request.user)] joins the
    users with the follow rows that name them as author and keeps the rows
    of the requesting user: one result per such row. *)
Definition user_obj (db : DB) (u : Z) : list (Z * CustomUser.t) :=
  omap (fun f =>
          match user_table db !! Follow.author f with
          | Some a => Some (Follow.author f, a)
          | None => None
          end)
       (filter (fun f => Follow.user f = u)
               (snd <$> map_to_list (follow_table db))).

(** [paginator.page_size = 6] *)
Definition page_size : Z := 6.

(** [PageNumberPagination.get_page_number] *)
Definition get_page_number {A} (object_list : list A) (p : PageParam)
  : option Z :=
  match p with
  | NoPage => Some 1
  | PageNumber n => Some n
  | LastPage => Some (Paginator.num_pages object_list page_size)
  | PageText => None
  end.

(** [PageNumberPagination.paginate_queryset]: the rows of the page, and
    its number; [InvalidPage] becomes [NotFound]. *)
Definition paginate_queryset {A} (object_list : list A) (p : PageParam)
  : (Z * list A) + APIException :=
  match get_page_number object_list p with
  | None => inr NotFound
  | Some number =>
      match Paginator.validate_number object_list page_size number with
      | inr _ => inr NotFound
      | inl number =>
          inl (number, Paginator.page object_list page_size number)
      end
  end.

(** The view.  [page] is what the query string of [request] holds under
    [page].  [ShowFollowersSerializer(result_page, many=True)] serializes
    the users of the page one by one, in their order. *)
Definition show_follows (request : Request) (page : PageParam) (db : DB)
  : Paginated + APIException :=
  let user_obj := user_obj db (user request) in
  match paginate_queryset user_obj page with
  | inr e => inr e
  | inl (number, result_page) =>
      inl {| count := Paginator.count user_obj;
             next := if number <? Paginator.num_pages user_obj page_size
                     then Some (number + 1) else None;
             previous := if 1 <? number then Some (number - 1) else None;
             results := result_page |}
  end.

End ShowFollows.

Module MoreExamples.

Definition a_user (n : string) : CustomUser.t := {| CustomUser.username := n |}.

Definition follows (u a : Z) : Follow.t :=
  {| Follow.user := u; Follow.author := a |}.

(** Nine users; user 1 follows the eight others and user 2 follows
    user 1. *)
Definition follows_db : DB :=
  {| user_table :=
       {[ 1 := a_user "u1"; 2 := a_user "u2"; 3 := a_user "u3";
          4 := a_user "u4"; 5 := a_user "u5"; 6 := a_user "u6";
          7 := a_user "u7"; 8 := a_user "u8"; 9 := a_user "u9" ]};
     ingredient_table := ∅; recipe_table := ∅;
     ingredient_in_recipe_table := [];
     favorite_table := ∅; shopping_list_table := ∅;
     follow_table :=
       {[ 1 := follows 1 2; 2 := follows 1 3; 3 := follows 1 4;
          4 := follows 1 5; 5 := follows 1 6; 6 := follows 1 7;
          7 := follows 1 8; 8 := follows 1 9; 9 := follows 2 1 ]} |}.

(** Three tags, one per colour. *)
Definition three_tags : gmap Z Tag.t :=
  {[ 1 := {| Tag.name := "breakfast"; Tag.color := Tag.ORANGE;
             Tag.slug := "breakfast" |};
     2 := {| Tag.name := "lunch"; Tag.color := Tag.GREEN;
             Tag.slug := "lunch" |};
     3 := {| Tag.name := "dinner"; Tag.color := Tag.PURPLE;
             Tag.slug := "dinner" |} ]}.

End MoreExamples.

(** ** Notions used in the statements *)

Import DownloadShoppingCart.

(** The invariant of the membership tables: at most one row per pair of
    user and target. *)
Definition at_most_one_per_pair (db : DB) : Prop :=
  (forall m u r,
      (size (objects_filter (by_user_recipe u r) (objects (acted m) db)) <= 1)%nat)
  /\ (forall u a,
        (size (objects_filter (by_user_author u a) (follow_table db)) <= 1)%nat).

(** Every stored recipe takes at least a minute. *)
Definition cooking_times_valid (db : DB) : Prop :=
  forall id r, recipe_table db !! id = Some r -> 1 <= Recipe.cooking_time r.

(** The line as the specification words it: name, space, hyphen, space,
    amount, space, unit. *)
Definition line_as_specified (item : string) (e : Entry) : string :=
  item +:+ " - " +:+ str_int (entry_amount e) +:+ " " +:+ measurement_unit e.

(** The sum of [f] over the elements of [l] that satisfy [P]. *)
Definition sum_where {A} (P : A -> Prop) `{!forall a, Decision (P a)}
    (f : A -> Z) (l : list A) : Z :=
  foldr Z.add 0 (f <$> filter P l).

(** The display name a row of the ingredient-amount table resolves to. *)
Definition name_of (db : DB) (r : IngredientAmount.t) : option string :=
  Ingredient.name <$> ingredient_table db !! IngredientAmount.ingredient r.

(** The rows the report of a request is made of. *)
Definition cart_rows (db : DB) (request : Request) : list IngredientAmount.t :=
  filter_recipe_in db (purchases db (user request)).

(** ** Properties *)

(** *** Tables and querysets *)

Section ManagerFacts.
Context {Row : Type}.
Implicit Types (t q : gmap Z Row) (P : Z * Row -> Prop).

Lemma queryset_exists_false q : queryset_exists q = false <-> q = ∅.
Proof.
  unfold queryset_exists. rewrite <- map_to_list_empty_iff.
  destruct (map_to_list q); split; congruence.
Qed.

Lemma queryset_exists_true q : queryset_exists q = true <-> q ≠ ∅.
Proof.
  rewrite <- queryset_exists_false. destruct (queryset_exists q); split; congruence.
Qed.

Lemma queryset_get_empty : queryset_get (∅ : gmap Z Row) = inl None.
Proof. unfold queryset_get. by rewrite map_to_list_empty. Qed.

Lemma queryset_get_singleton pk (r : Row) :
  queryset_get ({[ pk := r ]} : gmap Z Row) = inl (Some (pk, r)).
Proof. unfold queryset_get. by rewrite map_to_list_singleton. Qed.

Lemma filter_by_id t id :
  objects_filter (by_id id) t =
    match t !! id with Some r => {[ id := r ]} | None => ∅ end.
Proof.
  unfold objects_filter. apply map_eq. intros k.
  destruct (t !! id) as [r|] eqn:E.
  - destruct (decide (k = id)) as [->|Hne].
    + rewrite lookup_singleton_eq. apply map_lookup_filter_Some. by split.
    + rewrite lookup_singleton_ne by done.
      apply map_lookup_filter_None. right. intros x _ H. by apply Hne.
  - rewrite lookup_empty. apply map_lookup_filter_None.
    destruct (decide (k = id)) as [->|Hne]; [by left|].
    right. intros x _ H. by apply Hne.
Qed.

Lemma filter_insert_fresh P `{!forall x, Decision (P x)} t pk r :
  t !! pk = None -> P (pk, r) -> objects_filter P t = ∅ ->
  objects_filter P (<[ pk := r ]> t) = {[ pk := r ]}.
Proof.
  unfold objects_filter. intros Hfresh HP Hempty.
  rewrite map_filter_insert_True by done. by rewrite Hempty.
Qed.

Lemma size_one_singleton q : size q = 1%nat -> exists pk r, q = {[ pk := r ]}.
Proof.
  intros Hsize.
  destruct (map_size_ne_0_lookup_1 q) as (pk & r & Hpk); [by rewrite Hsize|].
  assert (delete pk q = ∅) as Hrest.
  { apply map_size_empty_inv. rewrite map_size_delete_Some by eauto.
    by rewrite Hsize. }
  exists pk, r. rewrite <- (insert_delete_id q pk r Hpk), Hrest.
  apply insert_empty.
Qed.

Lemma filter_delete_found P `{!forall x, Decision (P x)} t pk r :
  objects_filter P t = {[ pk := r ]} ->
  t !! pk = Some r /\ P (pk, r) /\ objects_filter P (delete pk t) = ∅.
Proof.
  unfold objects_filter. intros Hone.
  assert (filter P t !! pk = Some r) as Hpk.
  { rewrite Hone. apply lookup_singleton_eq. }
  apply map_lookup_filter_Some in Hpk as [Hpk HP].
  split; [done|]. split; [done|].
  rewrite map_filter_delete, Hone. apply delete_singleton_eq.
Qed.

Lemma fresh_pk_unused t : t !! fresh (dom t) = None.
Proof. apply not_elem_of_dom, is_fresh. Qed.

Lemma delete_fresh_insert t pk r :
  t !! pk = None -> delete pk (<[ pk := r ]> t) = t.
Proof. intros H. rewrite delete_insert_eq. by apply delete_id. Qed.

End ManagerFacts.

(** *** Running the ORM actions *)

Lemma get_by_id_or_404 {Row} (M : Model Row) id db :
  get_object_or_404 M (by_id id) db =
    match objects M db !! id with
    | Some r => (inl (id, r), db)
    | None => (inr Http404, db)
    end.
Proof.
  unfold get_object_or_404. rewrite filter_by_id.
  destruct (objects M db !! id).
  - by rewrite queryset_get_singleton.
  - by rewrite queryset_get_empty.
Qed.

Lemma get_or_404_none {Row} (M : Model Row) P `{!forall x, Decision (P x)} db :
  objects_filter P (objects M db) = ∅ ->
  get_object_or_404 M P db = (inr Http404, db).
Proof. unfold get_object_or_404. intros ->. by rewrite queryset_get_empty. Qed.

Lemma get_or_404_single {Row} (M : Model Row) P `{!forall x, Decision (P x)}
    db pk r :
  objects_filter P (objects M db) = {[ pk := r ]} ->
  get_object_or_404 M P db = (inl (pk, r), db).
Proof. unfold get_object_or_404. intros ->. by rewrite queryset_get_singleton. Qed.

(** [get_object_or_404] never writes. *)
Lemma get_or_404_reads {Row} (M : Model Row) P `{!forall x, Decision (P x)}
    db o db' :
  get_object_or_404 M P db = (o, db') -> db' = db.
Proof.
  unfold get_object_or_404.
  destruct (queryset_get _) as [[?|]|?]; congruence.
Qed.

Lemma bind_run {A B} (m : ORM A) (f : A -> ORM B) db :
  (m ≫= f) db =
    match m db with
    | (inl a, db') => f a db'
    | (inr e, db') => (inr e, db')
    end.
Proof. reflexivity. Qed.

(** The tables of the store are independent of each other. *)
Lemma acted_objects_with m t db : objects (acted m) (with_objects (acted m) t db) = t.
Proof. by destruct m. Qed.

Lemma recipe_table_with_acted m t db :
  objects Recipe_model (with_objects (acted m) t db) = objects Recipe_model db.
Proof. by destruct m. Qed.

Lemma with_objects_same m db : with_objects (acted m) (objects (acted m) db) db = db.
Proof. by destruct m, db. Qed.


(** *** The add views *)

Lemma get_post_present request recipe_id m db recipe :
  recipe_table db !! recipe_id = Some recipe ->
  objects_filter (by_user_recipe (user request) recipe_id) (objects (acted m) db) ≠ ∅ ->
  get_post request recipe_id m db = (inl already_added, db).
Proof.
  intros Hrecipe Hrow. unfold get_post.
  rewrite bind_run, get_by_id_or_404. simpl objects at 1. rewrite Hrecipe.
  rewrite bind_run. unfold filter_exists.
  change ((recipe_id, recipe).1) with recipe_id.
  apply queryset_exists_true in Hrow. by rewrite Hrow.
Qed.

Lemma get_post_absent request recipe_id m db recipe :
  recipe_table db !! recipe_id = Some recipe ->
  objects_filter (by_user_recipe (user request) recipe_id) (objects (acted m) db) = ∅ ->
  get_post request recipe_id m db =
    (inl {| data := AddFavouriteRecipeSerializer (recipe_id, recipe);
            status := HTTP_201_CREATED |},
     with_objects (acted m)
       (<[ fresh (dom (objects (acted m) db)) :=
             {| RecipeMark.user := user request;
                RecipeMark.recipe := recipe_id |} ]> (objects (acted m) db)) db).
Proof.
  intros Hrecipe Hrow. unfold get_post.
  rewrite bind_run, get_by_id_or_404. simpl objects at 1. rewrite Hrecipe.
  rewrite bind_run. unfold filter_exists.
  change ((recipe_id, recipe).1) with recipe_id.
  apply queryset_exists_false in Hrow. by rewrite Hrow.
Qed.

Lemma follow_post_present request user_id db author :
  user_table db !! user_id = Some author ->
  objects_filter (by_user_author (user request) user_id) (follow_table db) ≠ ∅ ->
  FollowViewSet.post request user_id db = (inl already_following, db).
Proof.
  intros Hauthor Hrow. unfold FollowViewSet.post.
  rewrite bind_run, get_by_id_or_404. simpl objects at 1. rewrite Hauthor.
  rewrite bind_run. unfold filter_exists.
  change ((user_id, author).1) with user_id.
  change (objects Follow_model db) with (follow_table db).
  apply queryset_exists_true in Hrow. by rewrite Hrow.
Qed.

Lemma follow_post_absent request user_id db author :
  user_table db !! user_id = Some author ->
  objects_filter (by_user_author (user request) user_id) (follow_table db) = ∅ ->
  FollowViewSet.post request user_id db =
    (inl {| data := ShowFollowersSerializer (user_id, author);
            status := HTTP_201_CREATED |},
     with_objects Follow_model
       (<[ fresh (dom (follow_table db)) :=
             {| Follow.user := user request; Follow.author := user_id |} ]>
          (follow_table db)) db).
Proof.
  intros Hauthor Hrow. unfold FollowViewSet.post.
  rewrite bind_run, get_by_id_or_404. simpl objects at 1. rewrite Hauthor.
  rewrite bind_run. unfold filter_exists.
  change ((user_id, author).1) with user_id.
  change (objects Follow_model db) with (follow_table db).
  apply queryset_exists_false in Hrow. by rewrite Hrow.
Qed.

(** *** The remove views *)

Lemma get_delete_run request recipe_id m db :
  get_delete request recipe_id m db =
    match recipe_table db !! recipe_id with
    | None => (inr Http404, db)
    | Some _ =>
        match queryset_get
                (objects_filter (by_user_recipe (user request) recipe_id)
                                (objects (acted m) db)) with
        | inl (Some obj) =>
            (inl deleted,
             with_objects (acted m) (delete obj.1 (objects (acted m) db)) db)
        | inl None => (inr Http404, db)
        | inr e => (inr e, db)
        end
    end.
Proof.
  unfold get_delete.
  rewrite bind_run, get_by_id_or_404.
  change (objects Recipe_model db) with (recipe_table db).
  destruct (recipe_table db !! recipe_id) as [recipe|]; [|done].
  rewrite bind_run. change ((recipe_id, recipe).1) with recipe_id.
  unfold get_object_or_404.
  by destruct (queryset_get _) as [[obj|]|e].
Qed.

Lemma follow_delete_run request user_id db :
  FollowViewSet.delete request user_id db =
    match user_table db !! user_id with
    | None => (inr Http404, db)
    | Some _ =>
        match queryset_get
                (objects_filter (by_user_author (user request) user_id)
                                (follow_table db)) with
        | inl (Some obj) =>
            (inl deleted,
             with_objects Follow_model (delete obj.1 (follow_table db)) db)
        | inl None => (inr Http404, db)
        | inr e => (inr e, db)
        end
    end.
Proof.
  unfold FollowViewSet.delete.
  rewrite bind_run, get_by_id_or_404.
  change (objects CustomUser_model db) with (user_table db).
  destruct (user_table db !! user_id) as [author|]; [|done].
  rewrite bind_run. change ((user_id, author).1) with user_id.
  unfold get_object_or_404.
  change (objects Follow_model db) with (follow_table db).
  by destruct (queryset_get _) as [[obj|]|e].
Qed.

Lemma dispatch_returned (view : ORM Response) db r db' :
  view db = (inl r, db') -> dispatch view db = (inl r, db').
Proof. unfold dispatch. by intros ->. Qed.

Lemma dispatch_404 (view : ORM Response) db db' :
  view db = (inr Http404, db') -> dispatch view db = (inl not_found, db').
Proof. unfold dispatch. by intros ->. Qed.

Lemma dispatch_inv (view : ORM Response) db o db' :
  dispatch view db = (o, db') ->
  (exists r, view db = (inl r, db') /\ o = inl r)
  \/ (view db = (inr Http404, db') /\ o = inl not_found)
  \/ (view db = (inr MultipleObjectsReturned, db')
      /\ o = inr MultipleObjectsReturned).
Proof.
  unfold dispatch. destruct (view db) as [[r|[]] db0]; intros [= <- <-]; eauto.
Qed.

(** *** Adding and removing memberships *)

(** C5.  Adding a membership (favourite, shopping list, follow) for a user
    and an existing target.  When a row for the pair is already stored, the
    view answers 400 and the store is left as it was.  When none is stored,
    the view answers 201 with the serialized target and the store gains one
    row for the pair under a primary key that was unused; the same call
    repeated on the new store answers 400, leaves it as it is, and exactly
    one row for the pair is stored. *)
Theorem C5_add_membership (request : Request) (target : Z) (db : DB) :
  (forall (m : ActedModel) (recipe : Recipe.t),
      recipe_table db !! target = Some recipe ->
      let P := by_user_recipe (user request) target in
      let add := dispatch (get_post request target m) in
      (objects_filter P (objects (acted m) db) ≠ ∅ ->
       add db = (inl already_added, db))
      /\ (objects_filter P (objects (acted m) db) = ∅ ->
          exists pk db1,
            objects (acted m) db !! pk = None
            /\ db1 = with_objects (acted m)
                       (<[ pk := {| RecipeMark.user := user request;
                                    RecipeMark.recipe := target |} ]>
                          (objects (acted m) db)) db
            /\ add db =
                 (inl {| data := AddFavouriteRecipeSerializer (target, recipe);
                         status := HTTP_201_CREATED |}, db1)
            /\ add db1 = (inl already_added, db1)
            /\ size (objects_filter P (objects (acted m) db1)) = 1%nat))
  /\ (forall author : CustomUser.t,
      user_table db !! target = Some author ->
      let P := by_user_author (user request) target in
      let add := dispatch (FollowViewSet.post request target) in
      (objects_filter P (follow_table db) ≠ ∅ ->
       add db = (inl already_following, db))
      /\ (objects_filter P (follow_table db) = ∅ ->
          exists pk db1,
            follow_table db !! pk = None
            /\ db1 = with_objects Follow_model
                       (<[ pk := {| Follow.user := user request;
                                    Follow.author := target |} ]>
                          (follow_table db)) db
            /\ add db =
                 (inl {| data := ShowFollowersSerializer (target, author);
                         status := HTTP_201_CREATED |}, db1)
            /\ add db1 = (inl already_following, db1)
            /\ size (objects_filter P (follow_table db1)) = 1%nat)).
Proof.
  split.
  - intros m recipe Hrecipe P add. subst P add. split.
    + intros Hrow. by apply dispatch_returned, get_post_present with recipe.
    + intros Hrow.
      pose proof (fresh_pk_unused (objects (acted m) db)) as Hfresh.
      eexists _, _. split; [exact Hfresh|]. split; [reflexivity|].
      assert (objects_filter (by_user_recipe (user request) target)
                (objects (acted m)
                   (with_objects (acted m)
                      (<[ fresh (dom (objects (acted m) db)) :=
                            {| RecipeMark.user := user request;
                               RecipeMark.recipe := target |} ]>
                         (objects (acted m) db)) db))
              = {[ fresh (dom (objects (acted m) db)) :=
                     {| RecipeMark.user := user request;
                        RecipeMark.recipe := target |} ]}) as Hone.
      { rewrite acted_objects_with. by apply filter_insert_fresh. }
      split; [by apply dispatch_returned, get_post_absent|].
      split.
      * apply dispatch_returned, get_post_present with recipe.
        -- pose proof (recipe_table_with_acted m) as E. simpl in E. by rewrite E.
        -- rewrite Hone. apply insert_non_empty.
      * rewrite Hone. apply map_size_singleton.
  - intros author Hauthor P add. subst P add. split.
    + intros Hrow. by apply dispatch_returned, follow_post_present with author.
    + intros Hrow.
      pose proof (fresh_pk_unused (follow_table db)) as Hfresh.
      eexists _, _. split; [exact Hfresh|]. split; [reflexivity|].
      assert (objects_filter (by_user_author (user request) target)
                (<[ fresh (dom (follow_table db)) :=
                      {| Follow.user := user request;
                         Follow.author := target |} ]> (follow_table db))
              = {[ fresh (dom (follow_table db)) :=
                     {| Follow.user := user request;
                        Follow.author := target |} ]}) as Hone.
      { by apply filter_insert_fresh. }
      split; [by apply dispatch_returned, follow_post_absent|].
      split.
      * apply dispatch_returned, follow_post_present with author; [done|].
        simpl follow_table. rewrite Hone. apply insert_non_empty.
      * simpl follow_table. rewrite Hone. apply map_size_singleton.
Qed.

Lemma C5_add_membership_witness :
  dispatch (get_post Examples.user1 10 ShoppingList) Examples.salt_db
    = (inl already_added, Examples.salt_db)
  /\ (exists pk db1,
        favorite_table Examples.salt_db !! pk = None
        /\ db1 = with_objects Favorite_model
                   (<[ pk := {| RecipeMark.user := 1;
                                RecipeMark.recipe := 10 |} ]>
                      (favorite_table Examples.salt_db)) Examples.salt_db
        /\ dispatch (get_post Examples.user1 10 Favorite) Examples.salt_db
           = (inl {| data := AddFavouriteRecipeSerializer
                               (10, Examples.a_recipe "soup");
                     status := HTTP_201_CREATED |}, db1)
        /\ dispatch (get_post Examples.user1 10 Favorite) db1
           = (inl already_added, db1)
        /\ size (objects_filter (by_user_recipe 1 10) (favorite_table db1))
           = 1%nat).
Proof.
  destruct (C5_add_membership Examples.user1 10 Examples.salt_db) as [H _].
  split.
  - destruct (H ShoppingList (Examples.a_recipe "soup") eq_refl) as [Hp _].
    apply Hp. vm_compute. discriminate.
  - destruct (H Favorite (Examples.a_recipe "soup") eq_refl) as [_ Ha].
    apply Ha. vm_compute. reflexivity.
Defined.

(** C6.  Removing a membership.  When the target does not exist the view
    answers 404; when the target exists and no row for the pair is stored
    it answers 404 as well; when the target exists and one row for the pair
    is stored, the view answers 204 and the store loses exactly that row,
    after which no row for the pair is stored.  Whatever the outcome,
    unless it is the 204 answer the store is left as it was. *)
Theorem C6_remove_membership (request : Request) (target : Z) (db : DB) :
  (forall m : ActedModel,
      let P := by_user_recipe (user request) target in
      let remove := dispatch (get_delete request target m) in
      (recipe_table db !! target = None -> remove db = (inl not_found, db))
      /\ (is_Some (recipe_table db !! target) ->
          objects_filter P (objects (acted m) db) = ∅ ->
          remove db = (inl not_found, db))
      /\ (is_Some (recipe_table db !! target) ->
          size (objects_filter P (objects (acted m) db)) = 1%nat ->
          exists pk row,
            objects (acted m) db !! pk = Some row /\ P (pk, row)
            /\ remove db =
                 (inl deleted,
                  with_objects (acted m) (delete pk (objects (acted m) db)) db)
            /\ objects_filter P (delete pk (objects (acted m) db)) = ∅)
      /\ (forall o db', remove db = (o, db') -> o ≠ inl deleted -> db' = db))
  /\ (let P := by_user_author (user request) target in
      let remove := dispatch (FollowViewSet.delete request target) in
      (user_table db !! target = None -> remove db = (inl not_found, db))
      /\ (is_Some (user_table db !! target) ->
          objects_filter P (follow_table db) = ∅ ->
          remove db = (inl not_found, db))
      /\ (is_Some (user_table db !! target) ->
          size (objects_filter P (follow_table db)) = 1%nat ->
          exists pk row,
            follow_table db !! pk = Some row /\ P (pk, row)
            /\ remove db =
                 (inl deleted,
                  with_objects Follow_model (delete pk (follow_table db)) db)
            /\ objects_filter P (delete pk (follow_table db)) = ∅)
      /\ (forall o db', remove db = (o, db') -> o ≠ inl deleted -> db' = db)).
Proof.
  split.
  - intros m P remove. subst P remove. repeat split.
    + intros Hnone. apply dispatch_404. by rewrite get_delete_run, Hnone.
    + intros [recipe Hsome] Hrow. apply dispatch_404.
      by rewrite get_delete_run, Hsome, Hrow, queryset_get_empty.
    + intros [recipe Hsome] Hsize.
      destruct (size_one_singleton _ Hsize) as (pk & row & Hrow).
      destruct (filter_delete_found _ _ _ _ Hrow) as (Hpk & HP & Hgone).
      exists pk, row. split; [done|]. split; [done|]. split; [|done].
      apply dispatch_returned.
      by rewrite get_delete_run, Hsome, Hrow, queryset_get_singleton.
    + intros o db' Hrun Ho.
      apply dispatch_inv in Hrun as [(r & Hrun & ->)|[[Hrun _]|[Hrun _]]];
        rewrite get_delete_run in Hrun;
        destruct (recipe_table db !! target);
        try destruct (queryset_get _) as [[obj|]|e];
        congruence.
  - intros P remove. subst P remove. repeat split.
    + intros Hnone. apply dispatch_404. by rewrite follow_delete_run, Hnone.
    + intros [author Hsome] Hrow. apply dispatch_404.
      by rewrite follow_delete_run, Hsome, Hrow, queryset_get_empty.
    + intros [author Hsome] Hsize.
      destruct (size_one_singleton _ Hsize) as (pk & row & Hrow).
      destruct (filter_delete_found _ _ _ _ Hrow) as (Hpk & HP & Hgone).
      exists pk, row. split; [done|]. split; [done|]. split; [|done].
      apply dispatch_returned.
      by rewrite follow_delete_run, Hsome, Hrow, queryset_get_singleton.
    + intros o db' Hrun Ho.
      apply dispatch_inv in Hrun as [(r & Hrun & ->)|[[Hrun _]|[Hrun _]]];
        rewrite follow_delete_run in Hrun;
        destruct (user_table db !! target);
        try destruct (queryset_get _) as [[obj|]|e];
        congruence.
Qed.

Lemma C6_remove_membership_witness :
  dispatch (get_delete Examples.user1 12 Favorite) Examples.salt_db
    = (inl not_found, Examples.salt_db)
  /\ dispatch (get_delete Examples.user1 10 Favorite) Examples.salt_db
    = (inl not_found, Examples.salt_db)
  /\ (exists pk row,
        shopping_list_table Examples.salt_db !! pk = Some row
        /\ by_user_recipe 1 10 (pk, row)
        /\ dispatch (get_delete Examples.user1 10 ShoppingList)
             Examples.salt_db
           = (inl deleted,
              with_objects ShoppingList_model
                (delete pk (shopping_list_table Examples.salt_db))
                Examples.salt_db)
        /\ objects_filter (by_user_recipe 1 10)
             (delete pk (shopping_list_table Examples.salt_db)) = ∅)
  /\ dispatch (FollowViewSet.delete Examples.user1 1) Examples.salt_db
    = (inl not_found, Examples.salt_db).
Proof.
  destruct (C6_remove_membership Examples.user1 12 Examples.salt_db)
    as [H12 _].
  destruct (C6_remove_membership Examples.user1 10 Examples.salt_db)
    as [H10 _].
  destruct (C6_remove_membership Examples.user1 1 Examples.salt_db)
    as [_ H1].
  split; [|split; [|split]].
  - destruct (H12 Favorite) as (Hgone & _). apply Hgone. reflexivity.
  - destruct (H10 Favorite) as (_ & Hnone & _). apply Hnone.
    + eexists. reflexivity.
    + vm_compute. reflexivity.
  - destruct (H10 ShoppingList) as (_ & _ & Hone & _).
    apply Hone.
    + eexists. reflexivity.
    + vm_compute. reflexivity.
  - destruct H1 as (_ & Hnone & _). apply Hnone.
    + eexists. reflexivity.
    + vm_compute. reflexivity.
Defined.

(** C7.  Follow then unfollow.  When the user does not follow the author,
    running the follow view and then the unfollow view on the store it
    leaves gives back the store the follow view started from: the follow
    table, and every other table, is what it was.  When the author exists
    the two views answer 201 and 204 and the follow table did change in
    between; when the author does not exist both answer 404. *)
Theorem C7_follow_then_unfollow (request : Request) (user_id : Z) (db : DB) :
  objects_filter (by_user_author (user request) user_id) (follow_table db) = ∅ ->
  let after_post := dispatch (FollowViewSet.post request user_id) db in
  let after_delete :=
    dispatch (FollowViewSet.delete request user_id) after_post.2 in
  after_delete.2 = db
  /\ follow_table after_delete.2 = follow_table db
  /\ (forall author : CustomUser.t,
        user_table db !! user_id = Some author ->
        after_post.1 = inl {| data := ShowFollowersSerializer (user_id, author);
                              status := HTTP_201_CREATED |}
        /\ follow_table after_post.2 ≠ follow_table db
        /\ after_delete.1 = inl deleted)
  /\ (user_table db !! user_id = None ->
      after_post.1 = inl not_found /\ after_delete.1 = inl not_found).
Proof.
  intros Hrow after_post after_delete.
  destruct (user_table db !! user_id) as [author|] eqn:Hauthor.
  - pose proof (fresh_pk_unused (follow_table db)) as Hfresh.
    set (pk := fresh (dom (follow_table db))) in *.
    set (row := {| Follow.user := user request; Follow.author := user_id |}).
    set (db1 := with_objects Follow_model (<[ pk := row ]> (follow_table db)) db).
    assert (after_post
            = (inl {| data := ShowFollowersSerializer (user_id, author);
                      status := HTTP_201_CREATED |}, db1)) as Hpost.
    { by apply dispatch_returned, follow_post_absent. }
    assert (after_delete = (inl deleted, db)) as Hdel.
    { subst after_delete. rewrite Hpost. cbn [snd]. apply dispatch_returned.
      rewrite follow_delete_run.
      change (user_table db1) with (user_table db).
      change (follow_table db1) with (<[ pk := row ]> (follow_table db)).
      rewrite Hauthor.
      rewrite (filter_insert_fresh _ _ pk row Hfresh); [|by split|done].
      rewrite queryset_get_singleton.
      change ((pk, row).1) with pk.
      rewrite delete_fresh_insert by done. by destruct db. }
    rewrite Hdel, Hpost. split; [done|]. split; [done|]. split; [|done].
    intros author' [= <-]. split; [done|]. split; [|done].
    change (follow_table (_, db1).2) with (<[ pk := row ]> (follow_table db)).
    intros E.
    assert (follow_table db !! pk = Some row) as Hin.
    { rewrite <- E. apply lookup_insert_eq. }
    congruence.
  - assert (after_post = (inl not_found, db)) as Hpost.
    { apply dispatch_404. unfold FollowViewSet.post.
      rewrite bind_run, get_by_id_or_404.
      change (objects CustomUser_model db) with (user_table db).
      by rewrite Hauthor. }
    assert (after_delete = (inl not_found, db)) as Hdel.
    { subst after_delete. rewrite Hpost. cbn [snd]. apply dispatch_404.
      by rewrite follow_delete_run, Hauthor. }
    rewrite Hdel, Hpost. by repeat split.
Qed.

Lemma C7_follow_then_unfollow_witness :
  (dispatch (FollowViewSet.delete Examples.user1 1)
     (dispatch (FollowViewSet.post Examples.user1 1) Examples.salt_db).2).2
    = Examples.salt_db
  /\ follow_table
       (dispatch (FollowViewSet.post Examples.user1 1) Examples.salt_db).2
     ≠ follow_table Examples.salt_db.
Proof.
  assert (objects_filter (by_user_author (user Examples.user1) 1)
            (follow_table Examples.salt_db) = ∅) as Hnone.
  { vm_compute. reflexivity. }
  destruct (C7_follow_then_unfollow Examples.user1 1 Examples.salt_db Hnone)
    as (Hback & _ & Hsome & _).
  split; [exact Hback|].
  destruct (Hsome {| CustomUser.username := "u" |} eq_refl) as (_ & Hchanged & _).
  exact Hchanged.
Defined.

(** C10.  The remove view for favourites and the shopping list never
    answers with the 400 "not added" response.  Run on any store it either
    returns the 204 response, or raises [Http404], which the framework
    answers with 404, or lets [MultipleObjectsReturned] through; a response
    it hands out has a status other than 400. *)
Theorem C10_not_added_unreachable (request : Request) (recipe_id : Z)
    (acted_model : ActedModel) (db : DB) :
  let outcome := (get_delete request recipe_id acted_model db).1 in
  (outcome = inl deleted \/ outcome = inr Http404
   \/ outcome = inr MultipleObjectsReturned)
  /\ outcome ≠ inl not_added
  /\ (forall r : Response,
        (dispatch (get_delete request recipe_id acted_model) db).1 = inl r ->
        status r ≠ HTTP_400_BAD_REQUEST).
Proof.
  intros outcome. subst outcome.
  assert ((get_delete request recipe_id acted_model db).1 = inl deleted
          \/ (get_delete request recipe_id acted_model db).1 = inr Http404
          \/ (get_delete request recipe_id acted_model db).1
             = inr MultipleObjectsReturned) as Hcases.
  { rewrite get_delete_run.
    destruct (recipe_table db !! recipe_id); [|by auto].
    destruct (queryset_get _) as [[obj|]|[]]; simpl; auto. }
  split; [exact Hcases|]. split.
  - destruct Hcases as [E|[E|E]]; rewrite E; discriminate.
  - intros r. unfold dispatch.
    destruct (get_delete request recipe_id acted_model db) as [[r0|[]] db'];
      simpl in *; destruct Hcases as [E|[E|E]]; try discriminate;
      intros [= <-]; try (injection E as ->); discriminate.
Qed.

Lemma C10_not_added_unreachable_witness :
  (dispatch (get_delete Examples.user1 10 ShoppingList) Examples.salt_db).1
    = inl deleted
  /\ status deleted ≠ HTTP_400_BAD_REQUEST.
Proof.
  assert ((dispatch (get_delete Examples.user1 10 ShoppingList)
             Examples.salt_db).1 = inl deleted) as Hrun.
  { vm_compute. reflexivity. }
  split; [exact Hrun|].
  destruct (C10_not_added_unreachable Examples.user1 10 ShoppingList
              Examples.salt_db) as (_ & _ & H).
  exact (H deleted Hrun).
Defined.

(** *** Recipe validation *)

Lemma clean_cooking_time_spec (value : Z) :
  clean_cooking_time value =
    if value <? 1
    then [validators.Invalid "Мин. время приготовления 1 минута"]
    else [].
Proof.
  unfold clean_cooking_time, validators.run_validators,
    Recipe.cooking_time_validators, validators.call. simpl.
  by destruct (value <? 1).
Qed.

(** C9.  The validators of [cooking_time] reject every value below 1, the
    value 0 among them.  A creation that submits a cooking time below 1
    fails with the validation errors and stores nothing; a store in which
    every recipe has a cooking time of at least 1 is still such a store
    after any creation. *)
Theorem C9_cooking_time_minimum :
  (forall value, value < 1 -> clean_cooking_time value ≠ [])
  /\ clean_cooking_time 0
     = [validators.Invalid "Мин. время приготовления 1 минута"]
  /\ (forall r db,
        Recipe.cooking_time r < 1 ->
        exists errors, errors ≠ [] /\ create_recipe r db = (inl errors, db))
  /\ (forall r db,
        cooking_times_valid db -> cooking_times_valid (create_recipe r db).2).
Proof.
  split; [|split; [|split]].
  - intros value Hlt. rewrite clean_cooking_time_spec.
    apply Z.ltb_lt in Hlt. by rewrite Hlt.
  - reflexivity.
  - intros r db Hlt. unfold create_recipe.
    rewrite clean_cooking_time_spec. apply Z.ltb_lt in Hlt. rewrite Hlt.
    eexists. split; [|reflexivity]. discriminate.
  - intros r db Hvalid. unfold create_recipe.
    rewrite clean_cooking_time_spec.
    destruct (Recipe.cooking_time r <? 1) eqn:Hlt; [exact Hvalid|].
    apply Z.ltb_ge in Hlt. simpl. intros id r'.
    destruct (decide (fresh (dom (recipe_table db)) = id)) as [Heq|Hne];
      cbn [recipe_table].
    + rewrite Heq, lookup_insert_eq. by intros [= <-].
    + rewrite lookup_insert_ne by done. apply Hvalid.
Qed.

Lemma C9_cooking_time_minimum_witness :
  clean_cooking_time (-3) ≠ []
  /\ (exists errors,
        errors ≠ []
        /\ create_recipe
             {| Recipe.author := 1; Recipe.image := "recipes/x.png";
                Recipe.name := "ice"; Recipe.text := "";
                Recipe.cooking_time := 0 |} Examples.salt_db
           = (inl errors, Examples.salt_db))
  /\ cooking_times_valid
       (create_recipe (Examples.a_recipe "stew") Examples.empty_db).2.
Proof.
  destruct C9_cooking_time_minimum as (Hlow & _ & Hreject & Hkeep).
  split; [|split].
  - apply Hlow. reflexivity.
  - apply Hreject. reflexivity.
  - apply Hkeep. intros id r. simpl. rewrite lookup_empty. discriminate.
Defined.

(** *** The shopping cart export *)

Lemma string_app_assoc (a b c : string) : (a +:+ b) +:+ c = a +:+ (b +:+ c).
Proof.
  induction a as [|x a IH]; [done|].
  change (String x ((a +:+ b) +:+ c) = String x (a +:+ (b +:+ c))).
  by rewrite IH.
Qed.

Lemma wishlist_lines db request :
  wishlist db request =
    ((fun kv => item_line kv.1 kv.2) <$> buying_list db request)
      ++ [newline; footer].
Proof.
  unfold wishlist. f_equal. apply list_fmap_ext. by intros _ [item e] _.
Qed.

Lemma purchases_none db u :
  (forall pk m, shopping_list_table db !! pk = Some m -> RecipeMark.user m ≠ u) ->
  purchases db u = [].
Proof.
  intros Hnone. unfold purchases.
  destruct (filter _ _) as [|m l] eqn:E; [done|].
  assert (m ∈ filter (fun m => RecipeMark.user m = u)
                     ((map_to_list (shopping_list_table db)).*2)) as Hin.
  { rewrite E. apply list_elem_of_here. }
  apply list_elem_of_filter in Hin as [Hu Hin].
  apply list_elem_of_fmap in Hin as ([pk m'] & -> & Hin).
  apply elem_of_map_to_list in Hin. by destruct (Hnone pk m' Hin).
Qed.

Lemma filter_recipe_in_nil db : filter_recipe_in db [] = [].
Proof.
  unfold filter_recipe_in.
  induction (ingredient_in_recipe_table db) as [|r l IH]; [done|].
  rewrite filter_cons_False; [done|]. apply not_elem_of_nil.
Qed.

(** C3.  When no row of the shopping-list table belongs to the user, the
    report is the blank line followed by the footer, and nothing else. *)
Theorem C3_empty_shopping_list (db : DB) (request : Request) :
  (forall pk m,
      shopping_list_table db !! pk = Some m ->
      RecipeMark.user m ≠ user request) ->
  buying_list db request = []
  /\ wishlist db request = [newline; footer]
  /\ chunks (get db request) = [newline; footer]
  /\ content (get db request) = newline +:+ footer.
Proof.
  intros Hnone.
  assert (buying_list db request = []) as Hbl.
  { unfold buying_list, ingredients.
    by rewrite (purchases_none _ _ Hnone), filter_recipe_in_nil. }
  assert (wishlist db request = [newline; footer]) as Hw.
  { by rewrite wishlist_lines, Hbl. }
  split; [done|]. split; [done|].
  unfold get, setitem, HttpResponse_init. simpl. by rewrite Hw.
Qed.

Lemma C3_empty_shopping_list_witness :
  wishlist Examples.salt_db {| user := 2 |} = [newline; footer]
  /\ content (get Examples.empty_db Examples.user1) = newline +:+ footer.
Proof.
  split.
  - apply (C3_empty_shopping_list Examples.salt_db {| user := 2 |}).
    intros pk m Hrow. apply elem_of_map_to_list in Hrow.
    assert (Forall (fun x : Z * RecipeMark.t => RecipeMark.user x.2 ≠ 2)
              (map_to_list (shopping_list_table Examples.salt_db))) as Hall.
    { vm_compute. repeat constructor; discriminate. }
    rewrite Forall_forall in Hall. exact (Hall _ Hrow).
  - apply (C3_empty_shopping_list Examples.empty_db Examples.user1).
    intros pk m. simpl. by rewrite lookup_empty.
Defined.

(** C4, as the code has it.  The report has one chunk per entry of the
    aggregation, in the order of the aggregation, before the blank line and
    the footer; the chunk of an entry is its name, " - ", its summed
    amount, a space, its unit, and then a further space and the line
    break. *)
Theorem C4_ingredient_line_format (db : DB) (request : Request)
    (i : nat) (item : string) (e : Entry) :
  buying_list db request !! i = Some (item, e) ->
  wishlist db request !! i
    = Some (item +:+ " - " +:+ str_int (entry_amount e) +:+ " "
                 +:+ measurement_unit e +:+ " " +:+ newline)
  /\ wishlist db request !! i
     = Some (line_as_specified item e +:+ " " +:+ newline)
  /\ length (wishlist db request)
     = (length (buying_list db request) + 2)%nat.
Proof.
  intros Hi. rewrite wishlist_lines.
  assert (((fun kv : string * Entry => item_line kv.1 kv.2)
             <$> buying_list db request) !! i = Some (item_line item e)) as Hl.
  { by rewrite list_lookup_fmap, Hi. }
  assert (item_line item e = line_as_specified item e +:+ " " +:+ newline) as Hs.
  { unfold item_line, line_as_specified. by rewrite !string_app_assoc. }
  split; [|split].
  - by apply lookup_app_l_Some.
  - rewrite <- Hs. by apply lookup_app_l_Some.
  - rewrite length_app, length_fmap. reflexivity.
Qed.

Lemma C4_ingredient_line_format_witness :
  buying_list Examples.flour_db Examples.user1 !! 0%nat
    = Some ("flour"%string,
            {| measurement_unit := "g"; entry_amount := 300 |})
  /\ wishlist Examples.flour_db Examples.user1 !! 0%nat
     = Some ("flour - 300 g " +:+ newline).
Proof.
  assert (buying_list Examples.flour_db Examples.user1 !! 0%nat
          = Some ("flour"%string,
                  {| measurement_unit := "g"; entry_amount := 300 |})) as Hi.
  { vm_compute. reflexivity. }
  split; [exact Hi|].
  destruct (C4_ingredient_line_format _ _ _ _ _ Hi) as (Hline & _).
  exact Hline.
Defined.

(** C4, as the specification words it, fails: the chunk for the 300 g of
    flour is not "flour - 300 g", it carries a space and a line break
    after the unit. *)
Lemma C4_counterexample :
  buying_list Examples.flour_db Examples.user1
    = [("flour"%string, {| measurement_unit := "g"; entry_amount := 300 |})]
  /\ line_as_specified "flour" {| measurement_unit := "g"; entry_amount := 300 |}
     = "flour - 300 g"%string
  /\ wishlist Examples.flour_db Examples.user1
     = ["flour - 300 g " +:+ newline; newline; footer]
  /\ wishlist Examples.flour_db Examples.user1 !! 0%nat
     ≠ Some (line_as_specified "flour"
               {| measurement_unit := "g"; entry_amount := 300 |}).
Proof.
  split; [|split; [|split]]; try (vm_compute; reflexivity).
  vm_compute. discriminate.
Qed.

(** C8.  On every store and for every authenticated request the response
    has status 200 and the [Content-Disposition] header of the specification,
    and the value of its [Content-Type] header is the whole string
    "Content-Type: text/plain" that the view passes as the content type,
    which is not "text/plain". *)
Theorem C8_download_headers (db : DB) (request : Request) :
  headers (get db request) !! "Content-Disposition"%string
    = Some ("attachment; filename=" +:+ dquote +:+ "wishlist.txt" +:+ dquote)
  /\ status_code (get db request) = 200
  /\ headers (get db request) !! "Content-Type"%string
     = Some "Content-Type: text/plain"%string
  /\ bool_decide (headers (get db request) !! "Content-Type"%string
                  = Some "text/plain"%string) = false.
Proof.
  unfold get, setitem, HttpResponse_init. cbn [headers status_code].
  assert ((<[ "Content-Disposition"%string :=
                "attachment; filename=" +:+ dquote +:+ "wishlist.txt"
                                        +:+ dquote ]>
             ({[ "Content-Type"%string := "Content-Type: text/plain"%string ]}
                : gmap string string))
          !! "Content-Type"%string = Some "Content-Type: text/plain"%string)
    as Hct.
  { rewrite lookup_insert_ne by discriminate. apply lookup_singleton_eq. }
  split; [apply lookup_insert_eq|]. split; [reflexivity|].
  split; [exact Hct|]. rewrite Hct. reflexivity.
Qed.

(** *** Accumulating into an insertion-ordered dictionary *)

Lemma sum_where_nil {A} (P : A -> Prop) `{!forall a, Decision (P a)}
    (f : A -> Z) :
  sum_where P f [] = 0.
Proof. reflexivity. Qed.

Lemma sum_where_cons {A} (P : A -> Prop) `{!forall a, Decision (P a)}
    (f : A -> Z) (x : A) (l : list A) :
  sum_where P f (x :: l) = (if decide (P x) then f x else 0) + sum_where P f l.
Proof.
  unfold sum_where. rewrite filter_cons.
  destruct (decide (P x)); [reflexivity|]. lia.
Qed.

Section DictFacts.
Context {K V : Type} `{EqDecision K}.
Implicit Types (k : K) (v : V) (d : list (K * V)).

Lemma upsert_keys k init upd d :
  (upsert k init upd d).*1 = if decide (k ∈ d.*1) then d.*1 else d.*1 ++ [k].
Proof.
  induction d as [|[k' v] d IH]; csimpl.
  - done.
  - destruct (decide (k' = k)) as [->|Hne]; csimpl.
    + rewrite decide_True; [done|]. apply list_elem_of_here.
    + rewrite IH. destruct (decide (k ∈ d.*1)) as [Hin|Hout].
      * rewrite decide_True; [done|]. by apply list_elem_of_further.
      * rewrite decide_False; [done|].
        intros [?|?]%elem_of_cons; congruence.
Qed.

Lemma upsert_NoDup k init upd d :
  NoDup d.*1 -> NoDup (upsert k init upd d).*1.
Proof.
  intros Hd. rewrite upsert_keys. destruct (decide (k ∈ d.*1)); [done|].
  apply NoDup_app. split; [done|]. split; [|apply NoDup_singleton].
  intros x Hx ->%list_elem_of_singleton. done.
Qed.

Lemma upsert_key_in k init upd d k' :
  k' ∈ (upsert k init upd d).*1 <-> k' = k \/ k' ∈ d.*1.
Proof.
  rewrite upsert_keys. destruct (decide (k ∈ d.*1)) as [Hin|Hout].
  - split; [by right|]. by intros [->|?].
  - rewrite elem_of_app, list_elem_of_singleton. tauto.
Qed.

(** A property of the entries that holds for fresh entries of key [k]
    and survives the update is an invariant of [upsert]. *)
Lemma upsert_Forall (R : K -> V -> Prop) k init upd d :
  R k init -> (forall v, R k v -> R k (upd v)) ->
  Forall (fun kv => R kv.1 kv.2) d ->
  Forall (fun kv => R kv.1 kv.2) (upsert k init upd d).
Proof.
  intros Hinit Hupd. induction 1 as [|[k' v] d Hkv Hd IH]; simpl.
  - by repeat constructor.
  - destruct (decide (k' = k)) as [->|Hne]; constructor; auto.
    by apply Hupd.
Qed.

(** What [upsert] does to the sum of a measure [m] over the entries
    whose key satisfies [sel], when a fresh entry measures [w] and the
    update adds [w] to the measure. *)
Lemma upsert_sum_where (sel : K -> Prop) `{!forall k, Decision (sel k)}
    (m : V -> Z) (w : Z) k init upd d :
  m init = w -> (forall v, m (upd v) = m v + w) ->
  sum_where (fun kv => sel kv.1) (fun kv => m kv.2) (upsert k init upd d)
  = sum_where (fun kv => sel kv.1) (fun kv : K * V => m kv.2) d
    + (if decide (sel k) then w else 0).
Proof.
  intros Hinit Hupd.
  induction d as [|[k' v] d IH]; cbn [upsert].
  - rewrite sum_where_cons, sum_where_nil. cbn [fst snd].
    destruct (decide (sel k)); lia.
  - destruct (decide (k' = k)) as [->|Hne];
      rewrite !sum_where_cons; cbn [fst snd].
    + destruct (decide (sel k)); [rewrite Hupd|]; lia.
    + rewrite IH. lia.
Qed.

End DictFacts.

Section FoldFacts.
Context {K V X : Type} `{EqDecision K}.
Context (key : X -> K) (init : X -> V) (upd : X -> V -> V).

Let step (d : list (K * V)) (x : X) : list (K * V) :=
  upsert (key x) (init x) (upd x) d.

Lemma fold_upsert_NoDup xs d :
  NoDup d.*1 -> NoDup (foldl step d xs).*1.
Proof.
  revert d. induction xs as [|x xs IH]; intros d Hd; [done|].
  simpl. apply IH. by apply upsert_NoDup.
Qed.

Lemma fold_upsert_key_in xs d k :
  k ∈ (foldl step d xs).*1 <-> k ∈ d.*1 \/ exists x, x ∈ xs /\ key x = k.
Proof.
  revert d. induction xs as [|x xs IH]; intros d; simpl.
  - split; [by left|]. intros [?|(x & Hx & _)]; [done|].
    by apply not_elem_of_nil in Hx.
  - rewrite IH. unfold step. rewrite upsert_key_in. split.
    + intros [[->|?]|(y & Hy & <-)]; eauto.
      * right. exists x. split; [apply list_elem_of_here|done].
      * right. exists y. split; [by apply list_elem_of_further|done].
    + intros [?|(y & Hy & <-)]; [by left; right|].
      apply elem_of_cons in Hy as [->|Hy]; [by left; left|].
      right. eauto.
Qed.

Lemma fold_upsert_Forall (R : K -> V -> Prop) xs d :
  (forall x, x ∈ xs -> R (key x) (init x)) ->
  (forall x v, x ∈ xs -> R (key x) v -> R (key x) (upd x v)) ->
  Forall (fun kv => R kv.1 kv.2) d ->
  Forall (fun kv => R kv.1 kv.2) (foldl step d xs).
Proof.
  revert d. induction xs as [|x xs IH]; intros d Hinit Hupd Hd; [done|].
  simpl. apply IH.
  - intros y Hy. apply Hinit. by apply list_elem_of_further.
  - intros y v Hy. apply Hupd. by apply list_elem_of_further.
  - apply upsert_Forall; [apply Hinit, list_elem_of_here| |done].
    intros v. apply Hupd, list_elem_of_here.
Qed.

Lemma fold_upsert_sum_where (sel : K -> Prop) `{!forall k, Decision (sel k)}
    (m : V -> Z) (w : X -> Z) xs d :
  (forall x, m (init x) = w x) ->
  (forall x v, m (upd x v) = m v + w x) ->
  sum_where (fun kv => sel kv.1) (fun kv => m kv.2) (foldl step d xs)
  = sum_where (fun kv => sel kv.1) (fun kv : K * V => m kv.2) d
    + sum_where (fun x => sel (key x)) w xs.
Proof.
  intros Hinit Hupd. revert d.
  induction xs as [|x xs IH]; intros d; cbn [foldl].
  - rewrite sum_where_nil. lia.
  - rewrite IH. unfold step. rewrite (upsert_sum_where sel m (w x)); auto.
    rewrite sum_where_cons. lia.
Qed.

End FoldFacts.

(** *** Aggregation by display name *)

(** The names of [buying_list] are pairwise distinct: the report never has
    two lines under one display name. *)
Lemma buying_list_names_NoDup (db : DB) (request : Request) :
  NoDup (buying_list db request).*1.
Proof.
  unfold buying_list.
  apply (fold_upsert_NoDup ingredient__name
           (fun g => {| measurement_unit := ingredient__measurement_unit g;
                        entry_amount := amount g |})
           (fun g e => {| measurement_unit := measurement_unit e;
                          entry_amount := entry_amount e + amount g |})).
  apply NoDup_nil_2.
Qed.

(** C2, on the store in which recipe 10 uses 3 g of one "salt" record and
    5 kg of another.  The query returns one row per ingredient record, and
    the loop folds the two rows into the single entry "salt", with the unit
    of the first and the sum of both amounts; the report has one
    ingredient line, not two.  On no store does the report have two
    entries under one display name. *)
Theorem C2_namesakes_share_one_line :
  ingredients Examples.namesake_db Examples.user1
    = [ {| ingredient := 1; ingredient__name := "salt";
           ingredient__measurement_unit := "g"; amount := 3 |};
        {| ingredient := 2; ingredient__name := "salt";
           ingredient__measurement_unit := "kg"; amount := 5 |} ]
  /\ buying_list Examples.namesake_db Examples.user1
     = [("salt"%string, {| measurement_unit := "g"; entry_amount := 8 |})]
  /\ wishlist Examples.namesake_db Examples.user1
     = ["salt - 8 g " +:+ newline; newline; footer]
  /\ (forall db request, NoDup (buying_list db request).*1).
Proof.
  split; [|split; [|split]]; try (vm_compute; reflexivity).
  apply buying_list_names_NoDup.
Qed.

(** C1, on the store in which the user has recipes 10 and 11 on the
    shopping list, both use ingredient 1 ("salt", g) with 1 and 2, and
    recipe 11 also uses 5 of ingredient 2 ("salt", kg).  The rows of the
    list's recipes that reference ingredient 1 are those two; the report
    has one line under "salt", and its amount is 8, not 1 + 2. *)
Theorem C1_shared_ingredient_with_namesake :
  purchases Examples.salt_db 1 = [11; 10]
  /\ filter (fun r => IngredientAmount.ingredient r = 1)
            (filter_recipe_in Examples.salt_db (purchases Examples.salt_db 1))
     = [Examples.mk_row 1 10 1; Examples.mk_row 1 11 2]
  /\ buying_list Examples.salt_db Examples.user1
     = [("salt"%string, {| measurement_unit := "g"; entry_amount := 8 |})]
  /\ wishlist Examples.salt_db Examples.user1
     = ["salt - 8 g " +:+ newline; newline; footer]
  /\ entry_amount
       <$> dict_get "salt"%string
             (buying_list Examples.salt_db Examples.user1)
     = Some (1 + 2 + 5).
Proof.
  split; [|split; [|split; [|split]]]; vm_compute; reflexivity.
Qed.

(** *** Amounts add up under a display name *)

Lemma sum_where_app {A} (P : A -> Prop) `{!forall a, Decision (P a)}
    (f : A -> Z) (l1 l2 : list A) :
  sum_where P f (l1 ++ l2) = sum_where P f l1 + sum_where P f l2.
Proof.
  induction l1 as [|x l1 IH]; [by rewrite sum_where_nil|].
  rewrite <- app_comm_cons, !sum_where_cons, IH. lia.
Qed.

Lemma sum_where_fmap {A B} (P : B -> Prop) `{!forall b, Decision (P b)}
    (f : B -> Z) (g : A -> B) (l : list A) :
  sum_where P f (g <$> l) = sum_where (fun a => P (g a)) (fun a => f (g a)) l.
Proof.
  induction l as [|x l IH]; [done|].
  rewrite fmap_cons, !sum_where_cons, IH. reflexivity.
Qed.

Lemma sum_where_ext {A} (P Q : A -> Prop) `{!forall a, Decision (P a)}
    `{!forall a, Decision (Q a)} (f : A -> Z) (l : list A) :
  (forall x, x ∈ l -> P x <-> Q x) -> sum_where P f l = sum_where Q f l.
Proof.
  induction l as [|x l IH]; intros Hext; [done|].
  rewrite !sum_where_cons, IH.
  - pose proof (Hext x (list_elem_of_here _ _)) as Hx.
    destruct (decide (P x)), (decide (Q x)); tauto || reflexivity.
  - intros y Hy. apply Hext. by apply list_elem_of_further.
Qed.

Lemma sum_where_none {A} (P : A -> Prop) `{!forall a, Decision (P a)}
    (f : A -> Z) (l : list A) :
  (forall x, x ∈ l -> ¬ P x) -> sum_where P f l = 0.
Proof.
  induction l as [|x l IH]; intros Hnone; [done|].
  rewrite sum_where_cons, IH.
  - rewrite decide_False; [done|]. apply Hnone, list_elem_of_here.
  - intros y Hy. apply Hnone. by apply list_elem_of_further.
Qed.

Lemma values_sum_by_name db n rows :
  sum_where (fun v => ingredient__name v = n) amount (values db rows)
  = sum_where (fun r => name_of db r = Some n) IngredientAmount.amount rows.
Proof.
  unfold values, name_of.
  induction rows as [|r rows IH]; [done|].
  rewrite sum_where_cons. cbn [omap list_omap].
  destruct (ingredient_table db !! IngredientAmount.ingredient r) as [i|];
    cbn [fmap option_fmap option_map].
  - rewrite sum_where_cons. cbn [ingredient__name amount]. fold (values db rows).
    unfold values. rewrite IH.
    destruct (decide (Ingredient.name i = n)) as [->|Hne].
    + by rewrite decide_True.
    + rewrite decide_False; [done|]. by intros [= ?].
  - rewrite decide_False by done. rewrite <- IH. reflexivity.
Qed.

Lemma annotate_sum_by_name n vals :
  sum_where (fun g => ingredient__name g = n) amount (annotate_sum vals)
  = sum_where (fun v => ingredient__name v = n) amount vals.
Proof.
  unfold annotate_sum. rewrite sum_where_fmap.
  rewrite (sum_where_ext _ (fun kv : Z * string * string * Z => kv.1.1.2 = n)
             _ _);
    [|by intros [[[i nm] u] a] _].
  etrans.
  { etrans; [|apply (fold_upsert_sum_where group_key amount
                       (fun r a => a + amount r)
                       (fun k => k.1.2 = n) (fun a => a) amount vals [])];
      [|done|done].
    unfold sum_where. f_equal. apply list_fmap_ext. by intros _ [[[i nm] u] a] _. }
  rewrite sum_where_nil. reflexivity.
Qed.

Lemma buying_list_sum_by_name db request n :
  sum_where (fun kv => kv.1 = n) (fun kv : string * Entry => entry_amount kv.2)
            (buying_list db request)
  = sum_where (fun g => ingredient__name g = n) amount (ingredients db request).
Proof.
  pose proof (fold_upsert_sum_where ingredient__name
             (fun g => {| measurement_unit := ingredient__measurement_unit g;
                          entry_amount := amount g |})
             (fun g e => {| measurement_unit := measurement_unit e;
                            entry_amount := entry_amount e + amount g |})
             (fun k => k = n) entry_amount amount
             (ingredients db request) []) as Hsum.
  change (foldl _ [] (ingredients db request))
    with (buying_list db request) in Hsum.
  rewrite Hsum by done. rewrite sum_where_nil. reflexivity.
Qed.

(** Whatever the store, the amounts filed under a display name in
    [buying_list] add up to the amounts of the rows of the shopping list's
    recipes whose ingredient carries that name: nothing is rounded,
    converted, lost or counted twice. *)
Theorem amounts_add_up_by_name (db : DB) (request : Request) (n : string) :
  sum_where (fun kv => kv.1 = n) (fun kv : string * Entry => entry_amount kv.2)
            (buying_list db request)
  = sum_where (fun r => name_of db r = Some n) IngredientAmount.amount
              (cart_rows db request).
Proof.
  rewrite buying_list_sum_by_name. unfold ingredients.
  rewrite annotate_sum_by_name. apply values_sum_by_name.
Qed.

(** Where each entry of [buying_list] comes from: its name and its unit are
    those of the ingredient of a row of the shopping list's recipes. *)
Lemma buying_list_provenance (db : DB) (request : Request) :
  Forall (fun kv : string * Entry =>
            exists r i,
              r ∈ cart_rows db request
              /\ ingredient_table db !! IngredientAmount.ingredient r = Some i
              /\ Ingredient.name i = kv.1
              /\ Ingredient.measurement_unit i = measurement_unit kv.2)
         (buying_list db request).
Proof.
  assert (forall v, v ∈ values db (cart_rows db request) ->
            exists r i,
              r ∈ cart_rows db request
              /\ ingredient_table db !! IngredientAmount.ingredient r = Some i
              /\ Ingredient.name i = ingredient__name v
              /\ Ingredient.measurement_unit i
                 = ingredient__measurement_unit v) as Hvals.
  { intros v Hv. unfold values in Hv.
    apply list_elem_of_omap in Hv as (r & Hr & Hv).
    destruct (ingredient_table db !! IngredientAmount.ingredient r) as [i|] eqn:Hi;
      [|done].
    injection Hv as <-. by exists r, i. }
  assert (forall g, g ∈ ingredients db request ->
            exists v, v ∈ values db (cart_rows db request)
                      /\ group_key v = group_key g) as Hgroups.
  { intros g Hg. unfold ingredients, annotate_sum in Hg.
    apply list_elem_of_fmap_1 in Hg as ([k a] & -> & Hka).
    assert (Forall (fun kv : Z * string * string * Z =>
                      exists v, v ∈ values db (cart_rows db request)
                                /\ group_key v = kv.1)
              (foldl (fun gs r => upsert (group_key r) (amount r)
                                         (fun a => a + amount r) gs)
                     [] (values db (cart_rows db request)))) as Hall.
    { apply (fold_upsert_Forall group_key amount (fun r a => a + amount r)
               (fun k _ => exists v, v ∈ values db (cart_rows db request)
                                     /\ group_key v = k)).
      - intros v Hv. by exists v.
      - intros v _ _ Hv. exact Hv.
      - constructor. }
    rewrite Forall_forall in Hall.
    destruct (Hall _ Hka) as (v & Hv & Hk).
    exists v. split; [done|]. cbn [fst snd] in Hk. rewrite Hk.
    by destruct k as [[i nm] u]. }
  unfold buying_list.
  apply (fold_upsert_Forall ingredient__name
           (fun g => {| measurement_unit := ingredient__measurement_unit g;
                        entry_amount := amount g |})
           (fun g e => {| measurement_unit := measurement_unit e;
                          entry_amount := entry_amount e + amount g |})
           (fun k e => exists r i,
              r ∈ cart_rows db request
              /\ ingredient_table db !! IngredientAmount.ingredient r = Some i
              /\ Ingredient.name i = k
              /\ Ingredient.measurement_unit i = measurement_unit e)).
  - intros g Hg. destruct (Hgroups g Hg) as (v & Hv & Hk).
    destruct (Hvals v Hv) as (r & i & Hr & Hi & Hn & Hu).
    exists r, i. unfold group_key in Hk. injection Hk as _ Hkn Hku.
    cbn [measurement_unit]. by rewrite Hn, Hu.
  - intros g e _ Hre. exact Hre.
  - constructor.
Qed.

Lemma foldr_add_Permutation (l1 l2 : list Z) :
  l1 ≡ₚ l2 -> foldr Z.add 0 l1 = foldr Z.add 0 l2.
Proof. induction 1; simpl; lia. Qed.

Lemma sum_where_two {A} (P : A -> Prop) `{!forall a, Decision (P a)}
    (f : A -> Z) (l : list A) (a b : A) :
  filter P l ≡ₚ [a; b] -> sum_where P f l = f a + f b.
Proof.
  intros Hperm. unfold sum_where.
  rewrite (foldr_add_Permutation _ (f <$> [a; b])) by (by rewrite Hperm).
  simpl. lia.
Qed.

(** An ingredient that is alone under its display name among the rows of
    the shopping list's recipes has exactly one entry in [buying_list] and
    exactly one line in the report: under its name, with its unit, and
    with the sum of the amounts of all the rows that reference it. *)
Theorem ingredient_without_namesake (db : DB) (request : Request)
    (I : Z) (ing : Ingredient.t) :
  ingredient_table db !! I = Some ing ->
  (exists r, r ∈ cart_rows db request /\ IngredientAmount.ingredient r = I) ->
  (forall r, r ∈ cart_rows db request ->
             name_of db r = Some (Ingredient.name ing) ->
             IngredientAmount.ingredient r = I) ->
  let e := {| measurement_unit := Ingredient.measurement_unit ing;
              entry_amount :=
                sum_where (fun r => IngredientAmount.ingredient r = I)
                          IngredientAmount.amount (cart_rows db request) |} in
  exists pre post,
    buying_list db request = pre ++ (Ingredient.name ing, e) :: post
    /\ (Ingredient.name ing ∉ pre.*1)
    /\ (Ingredient.name ing ∉ post.*1)
    /\ wishlist db request
       = ((fun kv => item_line kv.1 kv.2) <$> pre)
           ++ item_line (Ingredient.name ing) e
           :: ((fun kv => item_line kv.1 kv.2) <$> post)
           ++ [newline; footer].
Proof.
  intros Hing (r0 & Hr0 & HI) Hunique e0.
  set (n := Ingredient.name ing) in *.
  assert (forall r, r ∈ cart_rows db request ->
            name_of db r = Some n <-> IngredientAmount.ingredient r = I)
    as Hsame.
  { intros r Hr. split; [by apply Hunique|].
    intros Heq. unfold name_of. by rewrite Heq, Hing. }
  (* the name has an entry *)
  assert (n ∈ (buying_list db request).*1) as Hkey.
  { unfold buying_list.
    apply (fold_upsert_key_in ingredient__name
             (fun g => {| measurement_unit := ingredient__measurement_unit g;
                          entry_amount := amount g |})
             (fun g e => {| measurement_unit := measurement_unit e;
                            entry_amount := entry_amount e + amount g |})).
    right.
    set (v := {| ingredient := I; ingredient__name := n;
                 ingredient__measurement_unit := Ingredient.measurement_unit ing;
                 amount := IngredientAmount.amount r0 |}).
    assert (v ∈ values db (cart_rows db request)) as Hv.
    { unfold values. apply list_elem_of_omap. exists r0. split; [done|].
      by rewrite HI, Hing. }
    assert (group_key v
            ∈ (foldl (fun gs r => upsert (group_key r) (amount r)
                                         (fun a => a + amount r) gs)
                     [] (values db (cart_rows db request))).*1) as Hk.
    { apply (fold_upsert_key_in group_key amount (fun r a => a + amount r)).
      right. by exists v. }
    apply list_elem_of_fmap_1 in Hk as ([k a] & Hk & Hka).
    cbn [fst] in Hk. subst k.
    exists {| ingredient := I; ingredient__name := n;
              ingredient__measurement_unit := Ingredient.measurement_unit ing;
              amount := a |}.
    split; [|reflexivity].
    unfold ingredients, annotate_sum.
    by apply (list_elem_of_fmap_2' _ _ (group_key v, a)). }
  apply list_elem_of_fmap_1 in Hkey as ([n' e] & Hn & Hin).
  cbn [fst] in Hn. subst n'.
  apply list_elem_of_split in Hin as (pre & post & Hsplit).
  pose proof (buying_list_names_NoDup db request) as Hnodup.
  rewrite Hsplit, fmap_app, fmap_cons in Hnodup. cbn [fst] in Hnodup.
  apply NoDup_app in Hnodup as (_ & Hpre & Hpost).
  apply NoDup_cons in Hpost as [Hpost _].
  assert (n ∉ pre.*1) as Hnpre.
  { intros Hin. apply (Hpre n Hin). apply list_elem_of_here. }
  (* its amount *)
  assert (entry_amount e
          = sum_where (fun r => IngredientAmount.ingredient r = I)
                      IngredientAmount.amount (cart_rows db request)) as Hamount.
  { rewrite <- (sum_where_ext _ _ _ _ Hsame).
    rewrite <- amounts_add_up_by_name, Hsplit.
    rewrite sum_where_app, sum_where_cons. cbn [fst snd].
    rewrite decide_True by done.
    rewrite !sum_where_none; [lia| |].
    - intros kv Hkv Heq. apply Hpost. rewrite <- Heq.
      by apply list_elem_of_fmap_2.
    - intros kv Hkv Heq. apply Hnpre. rewrite <- Heq.
      by apply list_elem_of_fmap_2. }
  (* its unit *)
  assert (measurement_unit e = Ingredient.measurement_unit ing) as Hunit.
  { pose proof (buying_list_provenance db request) as Hprov.
    rewrite Forall_forall in Hprov.
    destruct (Hprov (n, e)) as (r & i & Hr & Hi & Hname & Hu).
    { rewrite Hsplit. apply elem_of_app. right. apply list_elem_of_here. }
    cbn [fst snd] in *.
    assert (IngredientAmount.ingredient r = I) as Heq.
    { apply Hunique; [done|]. unfold name_of. rewrite Hi. cbn.
      by rewrite Hname. }
    rewrite Heq, Hing in Hi. injection Hi as <-. done. }
  exists pre, post.
  assert (e = e0) as <-.
  { subst e0. destruct e as [u a]. cbn in Hamount, Hunit. by subst. }
  split; [done|]. split; [done|]. split; [done|].
  rewrite wishlist_lines, Hsplit, fmap_app, fmap_cons, <- app_assoc.
  reflexivity.
Qed.

(** The case of C1 without a namesake: when the rows of the shopping
    list's recipes that reference the ingredient are the row of one recipe
    with [q1] and the row of another with [q2], and no other ingredient of
    those recipes has the same display name, the report has exactly one
    line for the ingredient and its amount is [q1 + q2]. *)
Theorem shared_ingredient_amounts_add_up (db : DB) (request : Request)
    (I R1 R2 q1 q2 : Z) (ing : Ingredient.t) :
  ingredient_table db !! I = Some ing ->
  filter (fun r => IngredientAmount.ingredient r = I) (cart_rows db request)
    ≡ₚ [ {| IngredientAmount.ingredient := I; IngredientAmount.recipe := R1;
            IngredientAmount.amount := q1 |};
         {| IngredientAmount.ingredient := I; IngredientAmount.recipe := R2;
            IngredientAmount.amount := q2 |} ] ->
  (forall r, r ∈ cart_rows db request ->
             name_of db r = Some (Ingredient.name ing) ->
             IngredientAmount.ingredient r = I) ->
  let e := {| measurement_unit := Ingredient.measurement_unit ing;
              entry_amount := q1 + q2 |} in
  exists pre post,
    buying_list db request = pre ++ (Ingredient.name ing, e) :: post
    /\ (Ingredient.name ing ∉ pre.*1)
    /\ (Ingredient.name ing ∉ post.*1)
    /\ wishlist db request
       = ((fun kv => item_line kv.1 kv.2) <$> pre)
           ++ item_line (Ingredient.name ing) e
           :: ((fun kv => item_line kv.1 kv.2) <$> post)
           ++ [newline; footer].
Proof.
  intros Hing Hrows Hunique e.
  pose proof (sum_where_two _ IngredientAmount.amount _ _ _ Hrows) as Hsum.
  cbn [IngredientAmount.amount] in Hsum.
  subst e. rewrite <- Hsum.
  apply ingredient_without_namesake; [done| |done].
  exists {| IngredientAmount.ingredient := I; IngredientAmount.recipe := R1;
            IngredientAmount.amount := q1 |}.
  split; [|reflexivity].
  assert ({| IngredientAmount.ingredient := I; IngredientAmount.recipe := R1;
             IngredientAmount.amount := q1 |}
          ∈ filter (fun r => IngredientAmount.ingredient r = I)
                   (cart_rows db request)) as Hin.
  { rewrite Hrows. apply list_elem_of_here. }
  by apply list_elem_of_filter in Hin as [_ Hin].
Qed.

Example shared_ingredient_amounts_add_up_example :
  exists pre post,
    buying_list Examples.plain_db Examples.user1
      = pre ++ ("salt"%string,
                {| measurement_unit := "g"; entry_amount := 1 + 2 |}) :: post
    /\ ("salt"%string ∉ pre.*1)
    /\ ("salt"%string ∉ post.*1)
    /\ wishlist Examples.plain_db Examples.user1
       = ((fun kv => item_line kv.1 kv.2) <$> pre)
           ++ item_line "salt" {| measurement_unit := "g";
                                  entry_amount := 1 + 2 |}
           :: ((fun kv => item_line kv.1 kv.2) <$> post)
           ++ [newline; footer].
Proof.
  assert (cart_rows Examples.plain_db Examples.user1
          = [Examples.mk_row 1 10 1; Examples.mk_row 3 11 300;
             Examples.mk_row 1 11 2]) as Hrows.
  { vm_compute. reflexivity. }
  apply (shared_ingredient_amounts_add_up Examples.plain_db Examples.user1
           1 10 11 1 2 Examples.salt_g).
  - reflexivity.
  - rewrite Hrows. vm_compute. reflexivity.
  - rewrite Hrows. intros r Hr Hname.
    repeat (apply elem_of_cons in Hr as [->|Hr]); try reflexivity.
    + vm_compute in Hname. discriminate.
    + by apply elem_of_nil in Hr.
Defined.

(** *** One row per pair *)

Section PairFacts.
Context {Row : Type}.
Implicit Types (t : gmap Z Row) (Q : Z * Row -> Prop).

Lemma size_filter_insert Q `{!forall x, Decision (Q x)} t pk r :
  t !! pk = None ->
  (Q (pk, r) -> objects_filter Q t = ∅) ->
  (size (objects_filter Q t) <= 1)%nat ->
  (size (objects_filter Q (<[ pk := r ]> t)) <= 1)%nat.
Proof.
  intros Hfresh Hnew Hle.
  destruct (decide (Q (pk, r))) as [HQ|HQ].
  - rewrite (filter_insert_fresh Q t pk r Hfresh HQ (Hnew HQ)).
    by rewrite map_size_singleton.
  - unfold objects_filter in *.
    by rewrite map_filter_insert_False, delete_id.
Qed.

Lemma size_filter_delete Q `{!forall x, Decision (Q x)} t pk :
  (size (objects_filter Q t) <= 1)%nat ->
  (size (objects_filter Q (delete pk t)) <= 1)%nat.
Proof.
  unfold objects_filter. intros Hle.
  rewrite map_filter_delete, map_size_delete.
  destruct (filter Q t !! pk); simpl; lia.
Qed.

End PairFacts.

Lemma get_post_run request recipe_id m db :
  get_post request recipe_id m db =
    match recipe_table db !! recipe_id with
    | None => (inr Http404, db)
    | Some recipe =>
        if queryset_exists
             (objects_filter (by_user_recipe (user request) recipe_id)
                             (objects (acted m) db))
        then (inl already_added, db)
        else (inl {| data := AddFavouriteRecipeSerializer (recipe_id, recipe);
                     status := HTTP_201_CREATED |},
              with_objects (acted m)
                (<[ fresh (dom (objects (acted m) db)) :=
                      {| RecipeMark.user := user request;
                         RecipeMark.recipe := recipe_id |} ]>
                   (objects (acted m) db)) db)
    end.
Proof.
  unfold get_post. rewrite bind_run, get_by_id_or_404.
  change (objects Recipe_model db) with (recipe_table db).
  destruct (recipe_table db !! recipe_id) as [recipe|]; [|done].
  rewrite bind_run. unfold filter_exists.
  change ((recipe_id, recipe).1) with recipe_id.
  by destruct (queryset_exists _).
Qed.

Lemma follow_post_run request user_id db :
  FollowViewSet.post request user_id db =
    match user_table db !! user_id with
    | None => (inr Http404, db)
    | Some author =>
        if queryset_exists
             (objects_filter (by_user_author (user request) user_id)
                             (follow_table db))
        then (inl already_following, db)
        else (inl {| data := ShowFollowersSerializer (user_id, author);
                     status := HTTP_201_CREATED |},
              with_objects Follow_model
                (<[ fresh (dom (follow_table db)) :=
                      {| Follow.user := user request;
                         Follow.author := user_id |} ]> (follow_table db)) db)
    end.
Proof.
  unfold FollowViewSet.post. rewrite bind_run, get_by_id_or_404.
  change (objects CustomUser_model db) with (user_table db).
  destruct (user_table db !! user_id) as [author|]; [|done].
  rewrite bind_run. unfold filter_exists.
  change ((user_id, author).1) with user_id.
  change (objects Follow_model db) with (follow_table db).
  by destruct (queryset_exists _).
Qed.

(** The four membership views keep the invariant: a store with at most one
    row per pair is still such a store after any of them has run. *)
Theorem membership_views_keep_one_per_pair (request : Request) (id : Z)
    (db : DB) :
  at_most_one_per_pair db ->
  (forall m, at_most_one_per_pair (get_post request id m db).2)
  /\ (forall m, at_most_one_per_pair (get_delete request id m db).2)
  /\ at_most_one_per_pair (FollowViewSet.post request id db).2
  /\ at_most_one_per_pair (FollowViewSet.delete request id db).2.
Proof.
  intros [Hmarks Hfollows]. split; [|split; [|split]].
  - intros m. rewrite get_post_run.
    destruct (recipe_table db !! id) as [recipe|]; [|by split].
    destruct (queryset_exists _) eqn:Hex; [by split|].
    apply queryset_exists_false in Hex.
    split; [|intros u a; specialize (Hfollows u a); by destruct m].
    intros m' u r. cbn [snd].
    destruct (decide (m' = m)) as [->|Hne].
    + rewrite acted_objects_with.
      apply size_filter_insert; [apply fresh_pk_unused| |apply Hmarks].
      intros [Hu Hr]. cbn in Hu, Hr. by subst.
    + specialize (Hmarks m' u r). by destruct m, m'.
  - intros m. rewrite get_delete_run.
    destruct (recipe_table db !! id) as [recipe|]; [|by split].
    destruct (queryset_get _) as [[obj|]|e]; [|by split|by split].
    split; [|intros u a; specialize (Hfollows u a); by destruct m].
    intros m' u r. cbn [snd].
    destruct (decide (m' = m)) as [->|Hne].
    + rewrite acted_objects_with. apply size_filter_delete, Hmarks.
    + specialize (Hmarks m' u r). by destruct m, m'.
  - rewrite follow_post_run.
    destruct (user_table db !! id) as [author|]; [|by split].
    destruct (queryset_exists _) eqn:Hex; [by split|].
    apply queryset_exists_false in Hex. split.
    + intros m u r. specialize (Hmarks m u r). by destruct m.
    + intros u a. cbn [snd].
      change (follow_table (with_objects Follow_model ?t db)) with t.
      apply size_filter_insert; [apply fresh_pk_unused| |apply Hfollows].
      intros [Hu Ha]. cbn in Hu, Ha. by subst.
  - rewrite follow_delete_run.
    destruct (user_table db !! id) as [author|]; [|by split].
    destruct (queryset_get _) as [[obj|]|e]; [|by split|by split].
    split.
    + intros m u r. specialize (Hmarks m u r). by destruct m.
    + intros u a. cbn [snd].
      change (follow_table (with_objects Follow_model ?t db)) with t.
      apply size_filter_delete, Hfollows.
Qed.

(** On a store with at most one row per pair, the remove views never let
    [MultipleObjectsReturned] through. *)
Theorem remove_never_ambiguous (request : Request) (id : Z) (db : DB) :
  at_most_one_per_pair db ->
  (forall m, (get_delete request id m db).1 ≠ inr MultipleObjectsReturned)
  /\ (FollowViewSet.delete request id db).1 ≠ inr MultipleObjectsReturned.
Proof.
  assert (forall Row (q : gmap Z Row),
            (size q <= 1)%nat -> queryset_get q ≠ inr MultipleObjectsReturned)
    as Hget.
  { intros Row q Hle. unfold queryset_get.
    rewrite <- length_map_to_list in Hle.
    destruct (map_to_list q) as [|x [|y l]]; [done|done|].
    simpl in Hle. lia. }
  intros [Hmarks Hfollows]. split.
  - intros m. rewrite get_delete_run.
    destruct (recipe_table db !! id); [|done].
    specialize (Hget _ _ (Hmarks m (user request) id)).
    by destruct (queryset_get _) as [[obj|]|[]].
  - rewrite follow_delete_run.
    destruct (user_table db !! id); [|done].
    specialize (Hget _ _ (Hfollows (user request) id)).
    by destruct (queryset_get _) as [[obj|]|[]].
Qed.

(** ** Further properties of the shopping cart export *)

Lemma dict_get_sum_where {K V} `{EqDecision K} (m : V -> Z) (k : K)
    (d : list (K * V)) :
  NoDup d.*1 ->
  sum_where (fun kv => kv.1 = k) (fun kv : K * V => m kv.2) d
  = match dict_get k d with Some v => m v | None => 0 end.
Proof.
  induction d as [|[k' v] d IH]; intros Hnd; [done|].
  rewrite fmap_cons in Hnd. apply NoDup_cons in Hnd as [Hout Hnd].
  cbn [fst] in Hout. rewrite sum_where_cons. cbn [fst snd dict_get].
  destruct (decide (k' = k)) as [->|Hne].
  - rewrite sum_where_none; [lia|].
    intros kv Hkv Heq. apply Hout. rewrite <- Heq.
    by apply list_elem_of_fmap_2.
  - rewrite IH by done. lia.
Qed.

Lemma dict_get_key_in {K V} `{EqDecision K} (k : K) (d : list (K * V)) :
  is_Some (dict_get k d) <-> k ∈ d.*1.
Proof.
  induction d as [|[k' v] d IH]; cbn [dict_get].
  - split; [by intros [? ?]|]. by intros ?%elem_of_nil.
  - rewrite fmap_cons, elem_of_cons. cbn [fst].
    destruct (decide (k' = k)) as [->|Hne].
    + split; [by left|]. by eexists.
    + rewrite IH. split; [by right|]. by intros [?|?].
Qed.

Lemma values_row_origin db rows v :
  v ∈ values db rows <->
  exists r i,
    r ∈ rows
    /\ ingredient_table db !! IngredientAmount.ingredient r = Some i
    /\ v = {| ingredient := IngredientAmount.ingredient r;
              ingredient__name := Ingredient.name i;
              ingredient__measurement_unit := Ingredient.measurement_unit i;
              amount := IngredientAmount.amount r |}.
Proof.
  unfold values. rewrite list_elem_of_omap. split.
  - intros (r & Hr & Hv).
    destruct (ingredient_table db !! IngredientAmount.ingredient r)
      as [i|] eqn:Hi; [|done].
    injection Hv as <-. by exists r, i.
  - intros (r & i & Hr & Hi & ->). exists r. by rewrite Hi.
Qed.

Lemma annotate_sum_names vals n :
  (exists g, g ∈ annotate_sum vals /\ ingredient__name g = n)
  <-> (exists v, v ∈ vals /\ ingredient__name v = n).
Proof.
  unfold annotate_sum. split.
  - intros (g & Hg & Hn).
    apply list_elem_of_fmap_1 in Hg as ([k a] & -> & Hka).
    assert (k ∈ (foldl (fun gs r => upsert (group_key r) (amount r)
                                           (fun a => a + amount r) gs)
                       [] vals).*1) as Hk.
    { by apply (list_elem_of_fmap_2' fst _ (k, a)). }
    apply (fold_upsert_key_in group_key amount (fun r a => a + amount r))
      in Hk as [Hk|(v & Hv & Hkey)]; [by apply elem_of_nil in Hk|].
    exists v. split; [done|]. cbn [ingredient__name] in Hn.
    by rewrite <- Hn, <- Hkey.
  - intros (v & Hv & Hn).
    assert (group_key v
            ∈ (foldl (fun gs r => upsert (group_key r) (amount r)
                                         (fun a => a + amount r) gs)
                     [] vals).*1) as Hk.
    { apply (fold_upsert_key_in group_key amount (fun r a => a + amount r)).
      right. by exists v. }
    apply list_elem_of_fmap_1 in Hk as ([k a] & Hk & Hka).
    cbn [fst] in Hk. subst k.
    exists {| ingredient := ingredient v; ingredient__name := ingredient__name v;
              ingredient__measurement_unit := ingredient__measurement_unit v;
              amount := a |}.
    split; [|done].
    by apply (list_elem_of_fmap_2' _ _ (group_key v, a)).
Qed.

Lemma buying_list_key_in db request n :
  n ∈ (buying_list db request).*1
  <-> exists g, g ∈ ingredients db request /\ ingredient__name g = n.
Proof.
  pose proof (fold_upsert_key_in ingredient__name
             (fun g => {| measurement_unit := ingredient__measurement_unit g;
                          entry_amount := amount g |})
             (fun g e => {| measurement_unit := measurement_unit e;
                            entry_amount := entry_amount e + amount g |})
             (ingredients db request) [] n) as Hk.
  change (foldl _ [] (ingredients db request))
    with (buying_list db request) in Hk.
  rewrite Hk. split; [|by right].
  intros [Hnil|?]; [by apply elem_of_nil in Hnil|done].
Qed.

(** The names of the report are the display names of the ingredients that
    the recipes of the user's shopping list use: every such name has a
    line, and no line carries any other name. *)
Theorem report_names_are_cart_names (db : DB) (request : Request) (n : string) :
  n ∈ (buying_list db request).*1
  <-> exists r, r ∈ cart_rows db request /\ name_of db r = Some n.
Proof.
  rewrite buying_list_key_in.
  unfold ingredients. fold (cart_rows db request).
  rewrite annotate_sum_names. split.
  - intros (v & Hv & Hn).
    apply values_row_origin in Hv as (r & i & Hr & Hi & ->).
    exists r. split; [done|]. unfold name_of. by rewrite Hi, <- Hn.
  - intros (r & Hr & Hn). unfold name_of in Hn.
    destruct (ingredient_table db !! IngredientAmount.ingredient r)
      as [i|] eqn:Hi; [|done].
    injection Hn as Hn. eexists. split.
    + apply values_row_origin. by exists r, i.
    + done.
Qed.

(** The amount the report shows under a name is the exact sum of the
    amounts of the rows of the shopping list's recipes whose ingredient
    carries that name. *)
Theorem report_amount_is_total_by_name (db : DB) (request : Request)
    (n : string) (e : Entry) :
  dict_get n (buying_list db request) = Some e ->
  entry_amount e
  = sum_where (fun r => name_of db r = Some n) IngredientAmount.amount
              (cart_rows db request).
Proof.
  intros Hget. rewrite <- amounts_add_up_by_name.
  rewrite (dict_get_sum_where entry_amount n _
             (buying_list_names_NoDup db request)).
  by rewrite Hget.
Qed.

Lemma report_amount_is_total_by_name_witness :
  dict_get "salt"%string (buying_list Examples.plain_db Examples.user1)
    = Some {| measurement_unit := "g"; entry_amount := 3 |}
  /\ sum_where (fun r => name_of Examples.plain_db r = Some "salt"%string)
               IngredientAmount.amount
               (cart_rows Examples.plain_db Examples.user1) = 3.
Proof.
  assert (dict_get "salt"%string (buying_list Examples.plain_db Examples.user1)
          = Some {| measurement_unit := "g"; entry_amount := 3 |}) as Hget.
  { vm_compute. reflexivity. }
  split; [exact Hget|].
  symmetry. exact (report_amount_is_total_by_name _ _ _ _ Hget).
Defined.

Lemma purchases_elem db u recipe :
  recipe ∈ purchases db u
  <-> exists pk m,
        shopping_list_table db !! pk = Some m
        /\ RecipeMark.user m = u /\ RecipeMark.recipe m = recipe.
Proof.
  unfold purchases. rewrite list_elem_of_fmap. split.
  - intros (m & -> & Hm). apply list_elem_of_filter in Hm as [Hu Hm].
    apply list_elem_of_fmap_1 in Hm as ([pk m'] & -> & Hm).
    apply elem_of_map_to_list in Hm. by exists pk, m'.
  - intros (pk & m & Hm & Hu & Hr). exists m. split; [done|].
    apply list_elem_of_filter. split; [done|].
    apply (list_elem_of_fmap_2' snd _ (pk, m)); [|done].
    by apply elem_of_map_to_list.
Qed.

Lemma ingredients_ext db db' request :
  ingredient_table db = ingredient_table db' ->
  cart_rows db request = cart_rows db' request ->
  ingredients db request = ingredients db' request.
Proof.
  intros Hing Hrows. unfold ingredients.
  fold (cart_rows db request). fold (cart_rows db' request).
  rewrite Hrows. unfold values. by rewrite Hing.
Qed.

Lemma get_ext db db' request :
  ingredients db request = ingredients db' request ->
  get db request = get db' request.
Proof. intros H. unfold get, wishlist, buying_list. by rewrite H. Qed.

Lemma get_same_purchases db db' request :
  ingredient_table db = ingredient_table db' ->
  ingredient_in_recipe_table db = ingredient_in_recipe_table db' ->
  (forall recipe, recipe ∈ purchases db (user request)
                  <-> recipe ∈ purchases db' (user request)) ->
  get db request = get db' request.
Proof.
  intros Hing Hrows Hlist.
  apply get_ext, ingredients_ext; [done|].
  unfold cart_rows, filter_recipe_in. rewrite Hrows.
  apply list_filter_iff. intros r. apply Hlist.
Qed.

(** The report of a user is made of the ingredient table, the
    ingredient-amount table and that user's own shopping-list rows, and of
    nothing else: two stores that agree on these give the same response,
    whatever the other users' rows, the primary keys or the number of
    copies of a row. *)
Theorem report_depends_on_own_list_only (db db' : DB) (request : Request) :
  ingredient_table db = ingredient_table db' ->
  ingredient_in_recipe_table db = ingredient_in_recipe_table db' ->
  (forall recipe,
      (exists pk, shopping_list_table db !! pk
                  = Some {| RecipeMark.user := user request;
                            RecipeMark.recipe := recipe |})
      <-> (exists pk, shopping_list_table db' !! pk
                      = Some {| RecipeMark.user := user request;
                                RecipeMark.recipe := recipe |})) ->
  get db request = get db' request.
Proof.
  intros Hing Hrows Hlist.
  apply get_same_purchases; [done|done|].
  intros r. rewrite !purchases_elem.
  assert (forall d : DB,
            (exists pk m, shopping_list_table d !! pk = Some m
                          /\ RecipeMark.user m = user request
                          /\ RecipeMark.recipe m = r)
            <-> (exists pk, shopping_list_table d !! pk
                            = Some {| RecipeMark.user := user request;
                                      RecipeMark.recipe := r |})) as Hrow.
  { intros d. split.
    - intros (pk & [u rc] & Hm & Hu & Hr). cbn in Hu, Hr. subst. by exists pk.
    - intros (pk & Hm). by eexists pk, _. }
  by rewrite !Hrow.
Qed.

Lemma report_depends_on_own_list_only_witness :
  get Examples.plain_db Examples.user1
  = get {| user_table := ∅;
           ingredient_table := ingredient_table Examples.plain_db;
           recipe_table := ∅;
           ingredient_in_recipe_table :=
             ingredient_in_recipe_table Examples.plain_db;
           favorite_table := {[ 4 := Examples.mark 1 11 ]};
           shopping_list_table :=
             {[ 7 := Examples.mark 1 11; 8 := Examples.mark 1 10;
                9 := Examples.mark 2 12; 3 := Examples.mark 1 10 ]};
           follow_table := ∅ |} Examples.user1.
Proof.
  apply report_depends_on_own_list_only; [reflexivity|reflexivity|].
  intros recipe. split; intros [pk Hpk]; apply elem_of_map_to_list in Hpk.
  - assert (Forall (fun x : Z * RecipeMark.t =>
                      RecipeMark.user x.2 = 1 ->
                      RecipeMark.recipe x.2 = 10 \/ RecipeMark.recipe x.2 = 11)
              (map_to_list (shopping_list_table Examples.plain_db))) as Hall.
    { vm_compute.
      repeat first [apply Forall_nil_2 | apply Forall_cons_2];
        intros Hu; try discriminate Hu; auto. }
    rewrite Forall_forall in Hall.
    destruct (Hall _ Hpk eq_refl) as [E|E]; cbn in E; subst recipe.
    + exists 8. reflexivity.
    + exists 7. reflexivity.
  - match type of Hpk with
    | _ ∈ map_to_list ?t =>
        assert (Forall (fun x : Z * RecipeMark.t =>
                          RecipeMark.user x.2 = 1 ->
                          RecipeMark.recipe x.2 = 10
                          \/ RecipeMark.recipe x.2 = 11)
                  (map_to_list t)) as Hall
    end.
    { vm_compute.
      repeat first [apply Forall_nil_2 | apply Forall_cons_2];
        intros Hu; try discriminate Hu; auto. }
    rewrite Forall_forall in Hall.
    destruct (Hall _ Hpk eq_refl) as [E|E]; cbn in E; subst recipe.
    + exists 1. reflexivity.
    + exists 2. reflexivity.
Defined.

Lemma amount_validators_spec (value : Z) :
  validators.run_validators IngredientAmount.amount_validators value = []
  <-> 1 <= value.
Proof.
  unfold validators.run_validators, IngredientAmount.amount_validators,
    validators.call.
  cbn [omap list_omap validators.limit_value validators.message].
  destruct (value <? 1) eqn:Hlt.
  - apply Z.ltb_lt in Hlt. split; [done|lia].
  - apply Z.ltb_ge in Hlt. done.
Qed.

(** When every stored amount passes the validators of the model, every
    amount of the report is at least 1: no line shows zero or a negative
    quantity. *)
Theorem report_amounts_positive (db : DB) (request : Request) :
  Forall (fun r => validators.run_validators IngredientAmount.amount_validators
                     (IngredientAmount.amount r) = [])
         (ingredient_in_recipe_table db) ->
  Forall (fun kv : string * Entry => 1 <= entry_amount kv.2)
         (buying_list db request).
Proof.
  intros Hvalid. rewrite Forall_forall in Hvalid.
  assert (forall v, v ∈ values db (cart_rows db request) -> 1 <= amount v)
    as Hvals.
  { intros v (r & i & Hr & _ & ->)%values_row_origin. cbn [amount].
    apply amount_validators_spec, Hvalid.
    unfold cart_rows, filter_recipe_in in Hr.
    by apply list_elem_of_filter in Hr as [_ Hr]. }
  assert (forall g, g ∈ ingredients db request -> 1 <= amount g) as Hgroups.
  { intros g Hg. unfold ingredients, annotate_sum in Hg.
    fold (cart_rows db request) in Hg.
    apply list_elem_of_fmap_1 in Hg as ([k a] & -> & Hka). cbn [amount].
    assert (Forall (fun kv : Z * string * string * Z => 1 <= kv.2)
              (foldl (fun gs r => upsert (group_key r) (amount r)
                                         (fun a => a + amount r) gs)
                     [] (values db (cart_rows db request)))) as Hall.
    { apply (fold_upsert_Forall group_key amount (fun r a => a + amount r)
               (fun _ a => 1 <= a)).
      - intros v Hv. by apply Hvals.
      - intros v a0 Hv Ha. specialize (Hvals v Hv). lia.
      - constructor. }
    rewrite Forall_forall in Hall. exact (Hall _ Hka). }
  unfold buying_list.
  apply (fold_upsert_Forall ingredient__name
           (fun g => {| measurement_unit := ingredient__measurement_unit g;
                        entry_amount := amount g |})
           (fun g e => {| measurement_unit := measurement_unit e;
                          entry_amount := entry_amount e + amount g |})
           (fun _ e => 1 <= entry_amount e)).
  - intros g Hg. by apply Hgroups.
  - intros g e Hg He. cbn [entry_amount]. specialize (Hgroups g Hg). lia.
  - constructor.
Qed.

Lemma report_amounts_positive_witness :
  Forall (fun kv : string * Entry => 1 <= entry_amount kv.2)
         (buying_list Examples.salt_db Examples.user1).
Proof.
  apply report_amounts_positive.
  repeat first [apply Forall_nil_2 | apply Forall_cons_2]; reflexivity.
Defined.

Section DictLookup.
Context {K V X : Type} `{EqDecision K}.
Context (key : X -> K) (init : X -> V) (upd : X -> V -> V).

Lemma dict_get_upsert (k k' : K) (i : V) (u : V -> V) (d : list (K * V)) :
  dict_get k' (upsert k i u d)
  = if decide (k = k')
    then Some (match dict_get k d with Some v => u v | None => i end)
    else dict_get k' d.
Proof.
  induction d as [|[k0 v] d IH]; cbn [upsert dict_get].
  - by destruct (decide (k = k')).
  - destruct (decide (k0 = k)) as [->|Hne]; cbn [dict_get].
    + by destruct (decide (k = k')).
    + rewrite IH. destruct (decide (k0 = k')) as [->|Hne']; [|done].
      by rewrite decide_False.
Qed.

(** An attribute of the entries that the update leaves alone is still the
    attribute of the entry after any number of further rows. *)
Lemma fold_upsert_attribute {A} (a : V -> A) (xs : list X) (d : list (K * V))
    (k : K) (v : V) :
  (forall x v, a (upd x v) = a v) ->
  dict_get k d = Some v ->
  exists v', dict_get k (foldl (fun d x => upsert (key x) (init x) (upd x) d)
                               d xs) = Some v'
             /\ a v' = a v.
Proof.
  intros Hkeep. revert d v.
  induction xs as [|x xs IH]; intros d v Hget; cbn [foldl]; [by exists v|].
  destruct (decide (key x = k)) as [Hk|Hk].
  - destruct (IH (upsert (key x) (init x) (upd x) d) (upd x v)) as (v' & ? & E).
    { rewrite dict_get_upsert, decide_True by done. by rewrite Hk, Hget. }
    exists v'. split; [done|]. by rewrite E, Hkeep.
  - apply IH. by rewrite dict_get_upsert, decide_False.
Qed.

End DictLookup.

(** On a merge the unit of the first row wins: the unit a line shows under
    a name is the unit of the first row of the queryset that carries the
    name, whatever the units of the later rows with the same name. *)
Theorem report_unit_is_first_seen (db : DB) (request : Request)
    (pre post : list ValuesRow) (g : ValuesRow) :
  ingredients db request = pre ++ g :: post ->
  (forall g', g' ∈ pre -> ingredient__name g' ≠ ingredient__name g) ->
  exists e,
    dict_get (ingredient__name g) (buying_list db request) = Some e
    /\ measurement_unit e = ingredient__measurement_unit g.
Proof.
  intros Hsplit Hfirst. unfold buying_list. rewrite Hsplit, foldl_app.
  cbn [foldl].
  set (d := foldl loop_body [] pre).
  assert (dict_get (ingredient__name g) d = None) as Hnone.
  { destruct (dict_get (ingredient__name g) d) as [e|] eqn:E; [|done].
    assert (ingredient__name g ∈ d.*1) as Hin.
    { apply dict_get_key_in. by rewrite E. }
    apply (fold_upsert_key_in ingredient__name
             (fun g => {| measurement_unit := ingredient__measurement_unit g;
                          entry_amount := amount g |})
             (fun g e => {| measurement_unit := measurement_unit e;
                            entry_amount := entry_amount e + amount g |}))
      in Hin as [Hin|(g' & Hg' & Hn)].
    - by apply elem_of_nil in Hin.
    - by destruct (Hfirst g' Hg'). }
  apply (fold_upsert_attribute ingredient__name
           (fun g => {| measurement_unit := ingredient__measurement_unit g;
                        entry_amount := amount g |})
           (fun g e => {| measurement_unit := measurement_unit e;
                          entry_amount := entry_amount e + amount g |})
           measurement_unit post (loop_body d g) (ingredient__name g)
           {| measurement_unit := ingredient__measurement_unit g;
              entry_amount := amount g |}); [done|].
  unfold loop_body. rewrite dict_get_upsert, decide_True by done.
  by rewrite Hnone.
Qed.

Lemma report_unit_is_first_seen_witness :
  exists e,
    dict_get "salt"%string (buying_list Examples.namesake_db Examples.user1)
      = Some e
    /\ measurement_unit e = "g"%string.
Proof.
  apply (report_unit_is_first_seen Examples.namesake_db Examples.user1 []
           [ {| ingredient := 2; ingredient__name := "salt";
                ingredient__measurement_unit := "kg"; amount := 5 |} ]
           {| ingredient := 1; ingredient__name := "salt";
              ingredient__measurement_unit := "g"; amount := 3 |}).
  - vm_compute. reflexivity.
  - intros g' Hg'. by apply elem_of_nil in Hg'.
Defined.

(** ** Further properties of the membership views *)

Lemma follow_objects_with t db :
  follow_table (with_objects Follow_model t db) = t.
Proof. reflexivity. Qed.

Lemma follow_with_same db : with_objects Follow_model (follow_table db) db = db.
Proof. by destruct db. Qed.

(** A target that does not exist cannot be added: the add views answer
    404 and store nothing. *)
Theorem add_to_missing_target (request : Request) (id : Z) (db : DB) :
  (recipe_table db !! id = None ->
   forall m, dispatch (get_post request id m) db = (inl not_found, db))
  /\ (user_table db !! id = None ->
      dispatch (FollowViewSet.post request id) db = (inl not_found, db)).
Proof.
  split.
  - intros Hnone m. apply dispatch_404. by rewrite get_post_run, Hnone.
  - intros Hnone. apply dispatch_404. by rewrite follow_post_run, Hnone.
Qed.

Lemma add_to_missing_target_witness :
  dispatch (get_post Examples.user1 12 Favorite) Examples.salt_db
    = (inl not_found, Examples.salt_db)
  /\ dispatch (FollowViewSet.post Examples.user1 5) Examples.salt_db
     = (inl not_found, Examples.salt_db).
Proof.
  destruct (add_to_missing_target Examples.user1 12 Examples.salt_db)
    as [Hrecipe _].
  destruct (add_to_missing_target Examples.user1 5 Examples.salt_db)
    as [_ Huser].
  split; [apply Hrecipe|apply Huser]; reflexivity.
Defined.

(** What an add view may change.  Only the table of its own model differs
    afterwards; every row that was stored is still stored, under the same
    primary key; and a row that was not stored before is a row of the
    requesting user and the target. *)
Theorem add_views_frame (request : Request) (id : Z) (db : DB) :
  (forall m,
      let db' := (get_post request id m db).2 in
      db' = with_objects (acted m) (objects (acted m) db') db
      /\ (forall pk row, objects (acted m) db !! pk = Some row ->
                         objects (acted m) db' !! pk = Some row)
      /\ (forall pk row, objects (acted m) db' !! pk = Some row ->
                         objects (acted m) db !! pk = Some row
                         \/ row = {| RecipeMark.user := user request;
                                     RecipeMark.recipe := id |}))
  /\ (let db' := (FollowViewSet.post request id db).2 in
      db' = with_objects Follow_model (follow_table db') db
      /\ (forall pk row, follow_table db !! pk = Some row ->
                         follow_table db' !! pk = Some row)
      /\ (forall pk row, follow_table db' !! pk = Some row ->
                         follow_table db !! pk = Some row
                         \/ row = {| Follow.user := user request;
                                     Follow.author := id |})).
Proof.
  split.
  - intros m db'. subst db'. rewrite get_post_run.
    destruct (recipe_table db !! id) as [recipe|];
      [|by rewrite with_objects_same; auto].
    destruct (queryset_exists _); [by rewrite with_objects_same; auto|].
    cbn [snd]. rewrite acted_objects_with.
    pose proof (fresh_pk_unused (objects (acted m) db)) as Hfresh.
    split; [done|]. split.
    + intros pk row Hrow. rewrite lookup_insert_ne; [done|].
      intros <-. by rewrite Hfresh in Hrow.
    + intros pk row. rewrite lookup_insert. case_decide; [|by left].
      intros [= <-]. by right.
  - intros db'. subst db'. rewrite follow_post_run.
    destruct (user_table db !! id) as [author|];
      [|by rewrite follow_with_same; auto].
    destruct (queryset_exists _); [by rewrite follow_with_same; auto|].
    cbn [snd]. rewrite follow_objects_with.
    pose proof (fresh_pk_unused (follow_table db)) as Hfresh.
    split; [done|]. split.
    + intros pk row Hrow. rewrite lookup_insert_ne; [done|].
      intros <-. by rewrite Hfresh in Hrow.
    + intros pk row. rewrite lookup_insert. case_decide; [|by left].
      intros [= <-]. by right.
Qed.

(** What a remove view may change.  Only the table of its own model
    differs afterwards; every row stored afterwards was stored before,
    under the same primary key; and a row that is gone was a row of the
    requesting user and the target. *)
Theorem remove_views_frame (request : Request) (id : Z) (db : DB) :
  (forall m,
      let db' := (get_delete request id m db).2 in
      db' = with_objects (acted m) (objects (acted m) db') db
      /\ (forall pk row, objects (acted m) db' !! pk = Some row ->
                         objects (acted m) db !! pk = Some row)
      /\ (forall pk row, objects (acted m) db !! pk = Some row ->
                         objects (acted m) db' !! pk = Some row
                         \/ (RecipeMark.user row = user request
                             /\ RecipeMark.recipe row = id)))
  /\ (let db' := (FollowViewSet.delete request id db).2 in
      db' = with_objects Follow_model (follow_table db') db
      /\ (forall pk row, follow_table db' !! pk = Some row ->
                         follow_table db !! pk = Some row)
      /\ (forall pk row, follow_table db !! pk = Some row ->
                         follow_table db' !! pk = Some row
                         \/ (Follow.user row = user request
                             /\ Follow.author row = id))).
Proof.
  assert (forall Row (P : Z * Row -> Prop) `{!forall x, Decision (P x)}
                 (t : gmap Z Row) obj,
            queryset_get (objects_filter P t) = inl (Some obj) ->
            t !! obj.1 = Some obj.2 /\ P obj) as Hfound.
  { intros Row P HP t [pk r]. unfold queryset_get, objects_filter.
    destruct (map_to_list (filter P t)) as [|x [|y l]] eqn:E; [done| |done].
    intros [= ->].
    assert ((pk, r) ∈ map_to_list (filter P t)) as Hin.
    { rewrite E. apply list_elem_of_here. }
    apply elem_of_map_to_list in Hin.
    by apply map_lookup_filter_Some in Hin. }
  split.
  - intros m db'. subst db'. rewrite get_delete_run.
    destruct (recipe_table db !! id) as [recipe|];
      [|by rewrite with_objects_same; auto].
    destruct (queryset_get _) as [[obj|]|e] eqn:Hget;
      [|by rewrite with_objects_same; auto|by rewrite with_objects_same; auto].
    apply Hfound in Hget as [Hobj [Hu Hr]].
    cbn [snd]. rewrite acted_objects_with.
    split; [done|]. split.
    + intros pk row Hrow. by apply lookup_delete_Some in Hrow as [_ ?].
    + intros pk row Hrow. destruct (decide (obj.1 = pk)) as [<-|Hne].
      * right. rewrite Hobj in Hrow. by injection Hrow as <-.
      * left. by rewrite lookup_delete_ne.
  - intros db'. subst db'. rewrite follow_delete_run.
    destruct (user_table db !! id) as [author|];
      [|by rewrite follow_with_same; auto].
    destruct (queryset_get _) as [[obj|]|e] eqn:Hget;
      [|by rewrite follow_with_same; auto|by rewrite follow_with_same; auto].
    apply Hfound in Hget as [Hobj [Hu Hr]].
    cbn [snd]. rewrite follow_objects_with.
    split; [done|]. split.
    + intros pk row Hrow. by apply lookup_delete_Some in Hrow as [_ ?].
    + intros pk row Hrow. destruct (decide (obj.1 = pk)) as [<-|Hne].
      * right. rewrite Hobj in Hrow. by injection Hrow as <-.
      * left. by rewrite lookup_delete_ne.
Qed.

Lemma add_views_frame_witness :
  shopping_list_table
    (get_post Examples.user1 11 Favorite Examples.salt_db).2 !! 1
    = Some (Examples.mark 1 10)
  /\ favorite_table
       (get_post Examples.user1 11 ShoppingList Examples.salt_db).2 !! 1
     = None.
Proof.
  destruct (add_views_frame Examples.user1 11 Examples.salt_db) as [H _].
  split.
  - destruct (H Favorite) as (Hframe & _). cbv zeta in Hframe.
    rewrite Hframe. reflexivity.
  - destruct (H ShoppingList) as (_ & _ & Hnew).
    destruct (favorite_table
                (get_post Examples.user1 11 ShoppingList Examples.salt_db).2
                !! 1) eqn:E; [|done].
    vm_compute in E. discriminate.
Defined.

Lemma remove_views_frame_witness :
  shopping_list_table
    (get_delete Examples.user1 10 ShoppingList Examples.salt_db).2 !! 2
  = Some (Examples.mark 1 11).
Proof.
  destruct (remove_views_frame Examples.user1 10 Examples.salt_db) as [H _].
  destruct (H ShoppingList) as (_ & _ & Hgone).
  destruct (Hgone 2 (Examples.mark 1 11) eq_refl) as [Hkept|[_ Hr]].
  - exact Hkept.
  - discriminate Hr.
Defined.



(** Removing twice.  After a removal that answered 204 on a store with one
    row of the pair, the same removal again answers 404 and changes
    nothing. *)
Theorem remove_twice (request : Request) (id : Z) (db : DB) :
  (forall m,
      is_Some (recipe_table db !! id) ->
      size (objects_filter (by_user_recipe (user request) id)
              (objects (acted m) db)) = 1%nat ->
      let once := dispatch (get_delete request id m) db in
      once.1 = inl deleted
      /\ dispatch (get_delete request id m) once.2 = (inl not_found, once.2))
  /\ (is_Some (user_table db !! id) ->
      size (objects_filter (by_user_author (user request) id)
              (follow_table db)) = 1%nat ->
      let once := dispatch (FollowViewSet.delete request id) db in
      once.1 = inl deleted
      /\ dispatch (FollowViewSet.delete request id) once.2
         = (inl not_found, once.2)).
Proof.
  split.
  - intros m [recipe Hrecipe] Hsize once.
    destruct (size_one_singleton _ Hsize) as (pk & row & Hrow).
    destruct (filter_delete_found _ _ _ _ Hrow) as (_ & _ & Hgone).
    assert (once = (inl deleted,
                    with_objects (acted m)
                      (delete pk (objects (acted m) db)) db)) as ->.
    { apply dispatch_returned.
      by rewrite get_delete_run, Hrecipe, Hrow, queryset_get_singleton. }
    split; [done|]. cbn [snd]. apply dispatch_404. rewrite get_delete_run.
    assert (recipe_table (with_objects (acted m)
                            (delete pk (objects (acted m) db)) db)
            = recipe_table db) as -> by (by destruct m).
    by rewrite Hrecipe, acted_objects_with, Hgone, queryset_get_empty.
  - intros [author Hauthor] Hsize once.
    destruct (size_one_singleton _ Hsize) as (pk & row & Hrow).
    destruct (filter_delete_found _ _ _ _ Hrow) as (_ & _ & Hgone).
    assert (once = (inl deleted,
                    with_objects Follow_model
                      (delete pk (follow_table db)) db)) as ->.
    { apply dispatch_returned.
      by rewrite follow_delete_run, Hauthor, Hrow, queryset_get_singleton. }
    split; [done|]. cbn [snd]. apply dispatch_404. rewrite follow_delete_run.
    cbn [user_table follow_table with_objects Follow_model].
    by rewrite Hauthor, Hgone, queryset_get_empty.
Qed.

Lemma remove_twice_witness :
  (dispatch (get_delete Examples.user1 10 ShoppingList) Examples.salt_db).1
    = inl deleted
  /\ dispatch (get_delete Examples.user1 10 ShoppingList)
       (dispatch (get_delete Examples.user1 10 ShoppingList)
          Examples.salt_db).2
     = (inl not_found,
        (dispatch (get_delete Examples.user1 10 ShoppingList)
           Examples.salt_db).2).
Proof.
  destruct (remove_twice Examples.user1 10 Examples.salt_db) as [H _].
  apply (H ShoppingList).
  - eexists. reflexivity.
  - vm_compute. reflexivity.
Defined.

Lemma purchases_after_insert db u pk m recipe :
  shopping_list_table db !! pk = None ->
  recipe ∈ purchases (with_objects ShoppingList_model
                        (<[ pk := m ]> (shopping_list_table db)) db) u
  <-> (RecipeMark.user m = u /\ RecipeMark.recipe m = recipe)
      \/ recipe ∈ purchases db u.
Proof.
  intros Hfresh. rewrite !purchases_elem.
  cbn [shopping_list_table with_objects ShoppingList_model]. split.
  - intros (pk' & m' & Hm' & Hu & Hr).
    apply lookup_insert_Some in Hm' as [[<- <-]|[Hne Hm']]; [by left|].
    right. by exists pk', m'.
  - intros [[Hu Hr]|(pk' & m' & Hm' & Hu & Hr)].
    + exists pk, m. by rewrite lookup_insert_eq.
    + exists pk', m'. split; [|done]. rewrite lookup_insert_ne; [done|].
      intros <-. by rewrite Hfresh in Hm'.
Qed.

Lemma purchases_after_delete db u pk m recipe :
  shopping_list_table db !! pk = Some m ->
  RecipeMark.user m ≠ u ->
  recipe ∈ purchases (with_objects ShoppingList_model
                        (delete pk (shopping_list_table db)) db) u
  <-> recipe ∈ purchases db u.
Proof.
  intros Hpk Hother. rewrite !purchases_elem.
  cbn [shopping_list_table with_objects ShoppingList_model]. split.
  - intros (pk' & m' & Hm' & Hu & Hr).
    apply lookup_delete_Some in Hm' as [_ Hm']. by exists pk', m'.
  - intros (pk' & m' & Hm' & Hu & Hr). exists pk', m'. split; [|done].
    rewrite lookup_delete_ne; [done|]. intros <-.
    rewrite Hpk in Hm'. injection Hm' as <-. done.
Qed.

(** The report of a user does not move when favourites or follows change,
    whoever changes them, nor when another user adds a recipe to, or
    removes one from, that other user's shopping list. *)
Theorem report_untouched_by_other_memberships (request request' : Request)
    (id : Z) (db : DB) :
  get (get_post request id Favorite db).2 request' = get db request'
  /\ get (get_delete request id Favorite db).2 request' = get db request'
  /\ get (FollowViewSet.post request id db).2 request' = get db request'
  /\ get (FollowViewSet.delete request id db).2 request' = get db request'
  /\ (user request' ≠ user request ->
      get (get_post request id ShoppingList db).2 request' = get db request'
      /\ get (get_delete request id ShoppingList db).2 request'
         = get db request').
Proof.
  split; [|split; [|split; [|split]]].
  - rewrite get_post_run. destruct (recipe_table db !! id); [|done].
    by destruct (queryset_exists _).
  - rewrite get_delete_run. destruct (recipe_table db !! id); [|done].
    by destruct (queryset_get _) as [[obj|]|e].
  - rewrite follow_post_run. destruct (user_table db !! id); [|done].
    by destruct (queryset_exists _).
  - rewrite follow_delete_run. destruct (user_table db !! id); [|done].
    by destruct (queryset_get _) as [[obj|]|e].
  - intros Hother. split.
    + rewrite get_post_run. destruct (recipe_table db !! id); [|done].
      destruct (queryset_exists _); [done|]. cbn [snd].
      apply get_same_purchases; [done|done|].
      intros recipe. change (objects (acted ShoppingList) db)
        with (shopping_list_table db).
      rewrite (purchases_after_insert db (user request') _ _ recipe
                 (fresh_pk_unused (shopping_list_table db))).
      cbn [RecipeMark.user]. split; [|by right].
      intros [[Hu _]|?]; [|done]. congruence.
    + rewrite get_delete_run. destruct (recipe_table db !! id); [|done].
      destruct (queryset_get _) as [[[pk m]|]|e] eqn:Hget; [|done|done].
      cbn [snd fst]. apply get_same_purchases; [done|done|].
      intros recipe. change (objects (acted ShoppingList) db)
        with (shopping_list_table db) in *.
      assert (shopping_list_table db !! pk = Some m
              /\ RecipeMark.user m = user request) as [Hpk Hu].
      { unfold queryset_get, objects_filter in Hget.
        destruct (map_to_list (filter _ _)) as [|x [|y l]] eqn:E;
          [done| |done].
        injection Hget as ->.
        assert ((pk, m) ∈ map_to_list
                  (filter (by_user_recipe (user request) id)
                          (shopping_list_table db))) as Hin.
        { rewrite E. apply list_elem_of_here. }
        apply elem_of_map_to_list, map_lookup_filter_Some in Hin
          as [? [? _]].
        done. }
      apply (purchases_after_delete db (user request') pk m recipe Hpk).
      congruence.
Qed.

Lemma report_untouched_by_other_memberships_witness :
  get (get_post {| user := 2 |} 10 ShoppingList Examples.salt_db).2
      Examples.user1
  = get Examples.salt_db Examples.user1.
Proof.
  destruct (report_untouched_by_other_memberships {| user := 2 |}
              Examples.user1 10 Examples.salt_db) as (_ & _ & _ & _ & H).
  apply H. discriminate.
Defined.

Lemma sum_where_filter {A} (P Q : A -> Prop) `{!forall a, Decision (P a)}
    `{!forall a, Decision (Q a)} (f : A -> Z) (l : list A) :
  sum_where P f (filter Q l) = sum_where (fun x => Q x /\ P x) f l.
Proof.
  induction l as [|x l IH]; [done|].
  rewrite filter_cons, (sum_where_cons (fun x => Q x /\ P x)).
  destruct (decide (Q x)) as [HQ|HQ].
  - rewrite sum_where_cons, IH.
    destruct (decide (P x)); [by rewrite decide_True|].
    rewrite decide_False; [done|tauto].
  - rewrite IH, decide_False; [lia|tauto].
Qed.

Lemma sum_where_either {A} (P Q R : A -> Prop) `{!forall a, Decision (P a)}
    `{!forall a, Decision (Q a)} `{!forall a, Decision (R a)}
    (f : A -> Z) (l : list A) :
  (forall x, Q x -> R x -> False) ->
  sum_where (fun x => (Q x \/ R x) /\ P x) f l
  = sum_where (fun x => Q x /\ P x) f l + sum_where (fun x => R x /\ P x) f l.
Proof.
  intros Hdisj. induction l as [|x l IH]; [done|].
  rewrite !sum_where_cons, IH. specialize (Hdisj x).
  destruct (decide ((Q x \/ R x) /\ P x)), (decide (Q x /\ P x)),
    (decide (R x /\ P x)); tauto || lia.
Qed.

(** Adding a recipe to the shopping list raises the amount of every name
    by what that recipe uses under the name, and by nothing else: after
    the add view has stored the row, the total under a name is the total
    before plus the amounts of the recipe's own rows with that name. *)
Theorem shopping_add_raises_totals (request : Request) (id : Z) (db : DB)
    (recipe : Recipe.t) (n : string) :
  recipe_table db !! id = Some recipe ->
  objects_filter (by_user_recipe (user request) id) (shopping_list_table db)
    = ∅ ->
  let db1 := (get_post request id ShoppingList db).2 in
  sum_where (fun kv => kv.1 = n) (fun kv : string * Entry => entry_amount kv.2)
            (buying_list db1 request)
  = sum_where (fun kv => kv.1 = n)
              (fun kv : string * Entry => entry_amount kv.2)
              (buying_list db request)
    + sum_where (fun r => IngredientAmount.recipe r = id
                          /\ name_of db r = Some n)
                IngredientAmount.amount (ingredient_in_recipe_table db).
Proof.
  intros Hrecipe Hrow db1.
  assert (db1 = with_objects ShoppingList_model
                  (<[ fresh (dom (shopping_list_table db)) :=
                        {| RecipeMark.user := user request;
                           RecipeMark.recipe := id |} ]>
                     (shopping_list_table db)) db) as Hdb1.
  { subst db1. by rewrite (get_post_absent _ _ ShoppingList _ recipe). }
  assert (id ∉ purchases db (user request)) as Hnew.
  { intros (pk & m & Hm & Hu & Hr)%purchases_elem.
    assert (objects_filter (by_user_recipe (user request) id)
              (shopping_list_table db) !! pk = Some m) as Hin.
    { by apply map_lookup_filter_Some. }
    by rewrite Hrow in Hin. }
  rewrite !amounts_add_up_by_name.
  unfold cart_rows, filter_recipe_in. rewrite !sum_where_filter.
  assert (ingredient_in_recipe_table db1 = ingredient_in_recipe_table db)
    as -> by (by rewrite Hdb1).
  rewrite (sum_where_ext
             (fun r => IngredientAmount.recipe r ∈ purchases db1 (user request)
                       /\ name_of db1 r = Some n)
             (fun r => (IngredientAmount.recipe r ∈ purchases db (user request)
                        \/ IngredientAmount.recipe r = id)
                       /\ name_of db r = Some n)).
  - apply sum_where_either. intros r Hin Heq. apply Hnew. by rewrite <- Heq.
  - intros r _. rewrite Hdb1.
    rewrite (purchases_after_insert db (user request) _ _ _
               (fresh_pk_unused (shopping_list_table db))).
    cbn [RecipeMark.user RecipeMark.recipe].
    change (name_of (with_objects ShoppingList_model _ db) r)
      with (name_of db r).
    intuition.
Qed.

Lemma shopping_add_raises_totals_witness :
  sum_where (fun kv => kv.1 = "flour"%string)
            (fun kv : string * Entry => entry_amount kv.2)
            (buying_list
               (get_post {| user := 2 |} 11 ShoppingList Examples.plain_db).2
               {| user := 2 |})
  = sum_where (fun kv => kv.1 = "flour"%string)
              (fun kv : string * Entry => entry_amount kv.2)
              (buying_list Examples.plain_db {| user := 2 |})
    + sum_where (fun r => IngredientAmount.recipe r = 11
                          /\ name_of Examples.plain_db r = Some "flour"%string)
                IngredientAmount.amount
                (ingredient_in_recipe_table Examples.plain_db).
Proof.
  apply (shopping_add_raises_totals {| user := 2 |} 11 Examples.plain_db
           (Examples.a_recipe "bread") "flour").
  - reflexivity.
  - vm_compute. reflexivity.
Defined.

(** Nothing stops a user from following themselves: when the user exists
    and no such row is stored, the follow view creates the row whose user
    and author are the requesting user and answers 201. *)
Theorem self_follow_is_accepted (db : DB) (u : Z) (me : CustomUser.t) :
  user_table db !! u = Some me ->
  objects_filter (by_user_author u u) (follow_table db) = ∅ ->
  exists pk,
    follow_table db !! pk = None
    /\ dispatch (FollowViewSet.post {| user := u |} u) db
       = (inl {| data := ShowFollowersSerializer (u, me);
                 status := HTTP_201_CREATED |},
          with_objects Follow_model
            (<[ pk := {| Follow.user := u; Follow.author := u |} ]>
               (follow_table db)) db).
Proof.
  intros Hme Hrow. exists (fresh (dom (follow_table db))).
  split; [apply fresh_pk_unused|].
  apply dispatch_returned.
  by apply (follow_post_absent {| user := u |} u db me).
Qed.

Lemma self_follow_is_accepted_witness :
  exists pk,
    follow_table Examples.salt_db !! pk = None
    /\ dispatch (FollowViewSet.post {| user := 1 |} 1) Examples.salt_db
       = (inl {| data := ShowFollowersSerializer
                           (1, {| CustomUser.username := "u" |});
                 status := HTTP_201_CREATED |},
          with_objects Follow_model
            (<[ pk := {| Follow.user := 1; Follow.author := 1 |} ]>
               (follow_table Examples.salt_db)) Examples.salt_db).
Proof.
  apply self_follow_is_accepted.
  - reflexivity.
  - vm_compute. reflexivity.
Defined.

Lemma small_tables_one_per_pair (db : DB) :
  (size (favorite_table db) <= 1)%nat ->
  (size (shopping_list_table db) <= 1)%nat ->
  (size (follow_table db) <= 1)%nat ->
  at_most_one_per_pair db.
Proof.
  intros Hf Hs Hw. split.
  - intros m u r. unfold objects_filter.
    etrans; [apply map_size_filter|]. by destruct m.
  - intros u a. unfold objects_filter. etrans; [apply map_size_filter|]. done.
Qed.

Lemma membership_views_keep_one_per_pair_witness :
  at_most_one_per_pair
    (get_post Examples.user1 11 Favorite Examples.flour_db).2
  /\ at_most_one_per_pair
       (FollowViewSet.post Examples.user1 1 Examples.flour_db).2.
Proof.
  assert (at_most_one_per_pair Examples.flour_db) as Hinv.
  { apply small_tables_one_per_pair; vm_compute; lia. }
  destruct (membership_views_keep_one_per_pair Examples.user1 11
              Examples.flour_db Hinv) as (Hpost & _).
  destruct (membership_views_keep_one_per_pair Examples.user1 1
              Examples.flour_db Hinv) as (_ & _ & Hfollow & _).
  split; [apply Hpost|exact Hfollow].
Defined.

Lemma remove_never_ambiguous_witness :
  (get_delete Examples.user1 11 ShoppingList Examples.flour_db).1
  ≠ inr MultipleObjectsReturned.
Proof.
  assert (at_most_one_per_pair Examples.flour_db) as Hinv.
  { apply small_tables_one_per_pair; vm_compute; lia. }
  destruct (remove_never_ambiguous Examples.user1 11 Examples.flour_db Hinv)
    as [H _].
  apply H.
Defined.

(** ** Properties of show_follows *)

Lemma num_pages_bounds {A} (l : list A) :
  1 <= Paginator.num_pages l ShowFollows.page_size
  /\ Paginator.count l <= 6 * Paginator.num_pages l ShowFollows.page_size
  /\ 6 * (Paginator.num_pages l ShowFollows.page_size - 1)
     < Z.max 1 (Paginator.count l).
Proof.
  unfold Paginator.num_pages, ShowFollows.page_size, Paginator.count.
  generalize (Z.of_nat (length l)). intros c.
  Z.div_mod_to_equations. lia.
Qed.

Lemma page_take_drop {A} (l : list A) (number : Z) :
  1 <= number ->
  Paginator.page l ShowFollows.page_size number
  = take 6 (drop (6 * Z.to_nat (number - 1)) l).
Proof.
  intros Hn. unfold Paginator.page, Paginator.slice, ShowFollows.page_size,
    Paginator.count.
  set (k := Z.to_nat (number - 1)).
  assert ((number - 1) * 6 = Z.of_nat (6 * k)) as -> by lia.
  rewrite Nat2Z.id.
  destruct (Z.of_nat (length l) <=? Z.of_nat (6 * k) + 6 + 0) eqn:Hle.
  - apply Z.leb_le in Hle. rewrite Nat2Z.id.
    rewrite !take_ge; [done| |]; rewrite length_drop; lia.
  - apply Z.leb_gt in Hle. f_equal. lia.
Qed.

Lemma pages_concat {A} (l : list A) (N : nat) :
  concat ((fun k => take 6 (drop (6 * k) l)) <$> seq 0 N) = take (6 * N) l.
Proof.
  induction N as [|N IH]; [by rewrite take_0|].
  rewrite seq_S, fmap_app, concat_app, IH. cbn [fmap list_fmap concat].
  rewrite app_nil_r, take_take_drop. f_equal. lia.
Qed.

(** A page holds at most six users, each of them taken from the users the
    requesting user follows, in their order; [count] is the number of all
    of them. *)
Theorem show_follows_page_bound (request : Request) (page : PageParam)
    (db : DB) (r : Paginated) :
  ShowFollows.show_follows request page db = inl r ->
  (length (results r) <= 6)%nat
  /\ results r `sublist_of` ShowFollows.user_obj db (user request)
  /\ count r = Z.of_nat (length (ShowFollows.user_obj db (user request))).
Proof.
  unfold ShowFollows.show_follows, ShowFollows.paginate_queryset.
  destruct (ShowFollows.get_page_number _ page) as [number|]; [|done].
  unfold Paginator.validate_number.
  destruct (number <? 1) eqn:H1; [done|]. apply Z.ltb_ge in H1.
  assert (forall n', 1 <= n' ->
            inl {| count := Paginator.count
                              (ShowFollows.user_obj db (user request));
                   next := if n' <? Paginator.num_pages
                                      (ShowFollows.user_obj db (user request))
                                      ShowFollows.page_size
                           then Some (n' + 1) else None;
                   previous := if 1 <? n' then Some (n' - 1) else None;
                   results := Paginator.page
                                (ShowFollows.user_obj db (user request))
                                ShowFollows.page_size n' |}
            = (inl r : Paginated + APIException) ->
            (length (results r) <= 6)%nat
            /\ results r `sublist_of` ShowFollows.user_obj db (user request)
            /\ count r
               = Z.of_nat (length (ShowFollows.user_obj db (user request))))
    as Hpage.
  { intros n' Hn' [= <-]. cbn [results count]. rewrite page_take_drop by done.
    split; [rewrite length_take; lia|]. split; [|done].
    etrans; [apply sublist_take|apply sublist_drop]. }
  destruct (_ <? number); [|by apply Hpage].
  destruct (number =? 1); [by apply Hpage|done].
Qed.

Lemma show_follows_valid_number (request : Request) (number : Z) (db : DB) :
  1 <= number
    <= Paginator.num_pages (ShowFollows.user_obj db (user request))
                           ShowFollows.page_size ->
  ShowFollows.show_follows request (PageNumber number) db
  = inl {| count := Paginator.count (ShowFollows.user_obj db (user request));
           next := if number <? Paginator.num_pages
                                  (ShowFollows.user_obj db (user request))
                                  ShowFollows.page_size
                   then Some (number + 1) else None;
           previous := if 1 <? number then Some (number - 1) else None;
           results := take 6 (drop (6 * Z.to_nat (number - 1))
                                   (ShowFollows.user_obj db (user request))) |}.
Proof.
  intros [H1 HN].
  unfold ShowFollows.show_follows, ShowFollows.paginate_queryset,
    ShowFollows.get_page_number, Paginator.validate_number.
  apply Z.ltb_ge in H1 as H1'. rewrite H1'.
  apply Z.ltb_ge in HN as HN'. rewrite HN'.
  by rewrite page_take_drop.
Qed.

Lemma show_follows_answered (request : Request) (page : PageParam) (db : DB)
    (r : Paginated) :
  ShowFollows.show_follows request page db = inl r ->
  exists number,
    1 <= number
      <= Paginator.num_pages (ShowFollows.user_obj db (user request))
                             ShowFollows.page_size
    /\ ShowFollows.show_follows request (PageNumber number) db = inl r.
Proof.
  pose proof (num_pages_bounds (ShowFollows.user_obj db (user request)))
    as (HN & _).
  unfold ShowFollows.show_follows at 1, ShowFollows.paginate_queryset.
  destruct (ShowFollows.get_page_number _ page) as [number|]; [|done].
  unfold Paginator.validate_number.
  destruct (number <? 1) eqn:H1; [done|]. apply Z.ltb_ge in H1.
  destruct (_ <? number) eqn:H2.
  - destruct (number =? 1) eqn:H3; [|done]. apply Z.eqb_eq in H3.
    apply Z.ltb_lt in H2. lia.
  - apply Z.ltb_ge in H2. intros Hr. exists number. split; [lia|].
    rewrite show_follows_valid_number by lia. rewrite <- Hr.
    by rewrite page_take_drop.
Qed.

(** The page never shows anyone the requesting user does not follow:
    every result is a stored user, and a follow row of the requesting user
    names that user as author. *)
Theorem show_follows_only_followed (request : Request) (page : PageParam)
    (db : DB) (r : Paginated) (id : Z) (a : CustomUser.t) :
  ShowFollows.show_follows request page db = inl r ->
  (id, a) ∈ results r ->
  user_table db !! id = Some a
  /\ exists pk, follow_table db !! pk
                = Some {| Follow.user := user request; Follow.author := id |}.
Proof.
  intros (number & Hn & Hr)%show_follows_answered Hin.
  rewrite show_follows_valid_number in Hr by done.
  injection Hr as <-. cbn [results] in Hin.
  apply subseteq_take, subseteq_drop in Hin.
  unfold ShowFollows.user_obj in Hin.
  apply list_elem_of_omap in Hin as (f & Hf & Hsome).
  destruct (user_table db !! Follow.author f) as [a'|] eqn:Ha; [|done].
  injection Hsome as <- <-. split; [done|].
  apply list_elem_of_filter in Hf as [Hu Hf].
  apply list_elem_of_fmap_1 in Hf as ([pk f'] & -> & Hf).
  apply elem_of_map_to_list in Hf. exists pk.
  destruct f' as [u au]. cbn in *. by subst.
Qed.

Lemma show_follows_page_bound_witness :
  exists r,
    ShowFollows.show_follows Examples.user1 (PageNumber 2)
      MoreExamples.follows_db = inl r
    /\ (length (results r) <= 6)%nat
    /\ count r = 8.
Proof.
  eexists. split; [vm_compute; reflexivity|].
  match goal with
  | |- (length (results ?r) <= _)%nat /\ _ =>
      destruct (show_follows_page_bound Examples.user1 (PageNumber 2)
                  MoreExamples.follows_db r) as (Hlen & _ & Hcount)
  end.
  - vm_compute. reflexivity.
  - split; [exact Hlen|]. rewrite Hcount. vm_compute. reflexivity.
Defined.

Lemma show_follows_only_followed_witness :
  user_table MoreExamples.follows_db !! 4 = Some (MoreExamples.a_user "u4")
  /\ exists pk, follow_table MoreExamples.follows_db !! pk
                = Some {| Follow.user := 1; Follow.author := 4 |}.
Proof.
  assert (exists r, ShowFollows.show_follows Examples.user1 NoPage
                      MoreExamples.follows_db = inl r
                    /\ (4, MoreExamples.a_user "u4") ∈ results r)
    as (r & Hr & Hin).
  { eexists. split; [vm_compute; reflexivity|].
    cbn [results]. repeat first [apply list_elem_of_here
                                | apply list_elem_of_further]. }
  exact (show_follows_only_followed Examples.user1 NoPage
           MoreExamples.follows_db r 4 _ Hr Hin).
Defined.

(** Pagination loses nobody and repeats nobody: the results of the pages
    1, 2, ... up to the last, put one after the other, are the users the
    requesting user follows, each as often and in the order the queryset
    has them. *)
Theorem show_follows_pages_cover (request : Request) (db : DB) :
  concat
    ((fun number =>
        match ShowFollows.show_follows request (PageNumber number) db with
        | inl r => results r
        | inr _ => []
        end)
       <$> seqZ 1 (Paginator.num_pages
                     (ShowFollows.user_obj db (user request))
                     ShowFollows.page_size))
  = ShowFollows.user_obj db (user request).
Proof.
  set (l := ShowFollows.user_obj db (user request)).
  pose proof (num_pages_bounds l) as (HN & Hcover & _).
  set (N := Paginator.num_pages l ShowFollows.page_size) in *.
  unfold seqZ. rewrite <- list_fmap_compose.
  rewrite (list_fmap_ext _ (fun k => take 6 (drop (6 * k) l))).
  - rewrite pages_concat. apply take_ge. unfold Paginator.count in Hcover. lia.
  - intros i k Hk. apply lookup_seq in Hk as [-> Hlt]. cbn [compose].
    rewrite show_follows_valid_number by (fold l; fold N; lia).
    cbn [results]. fold l. do 3 f_equal. lia.
Qed.

(** Which requests are refused.  The view answers 404 exactly when the
    page parameter is text that is neither a number nor "last", or a
    number below 1 or above the number of pages; without the parameter,
    and with "last", it always answers, also for a user who follows
    nobody. *)
Theorem show_follows_refused (request : Request) (page : PageParam) (db : DB) :
  ShowFollows.show_follows request page db = inr NotFound
  <-> page = PageText
      \/ exists number,
           page = PageNumber number
           /\ (number < 1
               \/ Paginator.num_pages (ShowFollows.user_obj db (user request))
                                      ShowFollows.page_size < number).
Proof.
  pose proof (num_pages_bounds (ShowFollows.user_obj db (user request)))
    as (HN & _).
  assert (forall number,
            ShowFollows.show_follows request (PageNumber number) db
            = inr NotFound
            <-> number < 1
                \/ Paginator.num_pages (ShowFollows.user_obj db (user request))
                                       ShowFollows.page_size < number)
    as Hnumber.
  { intros number.
    destruct (decide (1 <= number
                      <= Paginator.num_pages
                           (ShowFollows.user_obj db (user request))
                           ShowFollows.page_size)) as [Hok|Hbad].
    - rewrite show_follows_valid_number by done. split; [done|lia].
    - split; [lia|]. intros _.
      unfold ShowFollows.show_follows, ShowFollows.paginate_queryset,
        ShowFollows.get_page_number, Paginator.validate_number.
      destruct (number <? 1) eqn:H1; [done|]. apply Z.ltb_ge in H1.
      destruct (_ <? number) eqn:H2; [|apply Z.ltb_ge in H2; lia].
      destruct (number =? 1) eqn:H3; [|done].
      apply Z.eqb_eq in H3. apply Z.ltb_lt in H2. lia. }
  destruct page as [|number| |].
  - change (ShowFollows.show_follows request NoPage db)
      with (ShowFollows.show_follows request (PageNumber 1) db).
    rewrite Hnumber. split; [lia|]. intros [[=]|(n & [=] & _)].
  - rewrite Hnumber. split.
    + intros H. right. by exists number.
    + intros [[=]|(n & [= <-] & H)]. done.
  - change (ShowFollows.show_follows request LastPage db)
      with (ShowFollows.show_follows request
              (PageNumber (Paginator.num_pages
                             (ShowFollows.user_obj db (user request))
                             ShowFollows.page_size)) db).
    rewrite Hnumber. split; [lia|]. intros [[=]|(n & [=] & _)].
  - split; [by left|done].
Qed.

(** The links of an answered page never lead to a refused page. *)
Theorem show_follows_links_lead_somewhere (request : Request)
    (page : PageParam) (db : DB) (r : Paginated) (target : Z) :
  ShowFollows.show_follows request page db = inl r ->
  next r = Some target \/ previous r = Some target ->
  exists r', ShowFollows.show_follows request (PageNumber target) db = inl r'.
Proof.
  intros (number & Hn & Hr)%show_follows_answered Hlink.
  rewrite show_follows_valid_number in Hr by done.
  injection Hr as <-. cbn [next previous] in Hlink.
  assert (1 <= target
          <= Paginator.num_pages (ShowFollows.user_obj db (user request))
                                 ShowFollows.page_size) as Hok.
  { destruct Hlink as [Hlink|Hlink].
    - destruct (number <? _) eqn:H; [|done]. apply Z.ltb_lt in H.
      injection Hlink as <-. lia.
    - destruct (1 <? number) eqn:H; [|done]. apply Z.ltb_lt in H.
      injection Hlink as <-. lia. }
  eexists. by apply show_follows_valid_number.
Qed.

Lemma show_follows_links_lead_somewhere_witness :
  exists r', ShowFollows.show_follows Examples.user1 (PageNumber 2)
               MoreExamples.follows_db = inl r'.
Proof.
  assert (exists r, ShowFollows.show_follows Examples.user1 NoPage
                      MoreExamples.follows_db = inl r
                    /\ next r = Some 2) as (r & Hr & Hnext).
  { eexists. split; vm_compute; reflexivity. }
  apply (show_follows_links_lead_somewhere Examples.user1 NoPage
           MoreExamples.follows_db r 2 Hr).
  by left.
Defined.

(** ** Properties of the Tag model *)

Lemma validate_color_choice (value : string) :
  Tag.validate_color value = None -> value ∈ Tag.COLOR_CHOICES.*1.
Proof.
  unfold Tag.validate_color.
  destruct (decide (value = ""%string)); [done|].
  by destruct (decide (value ∈ Tag.COLOR_CHOICES.*1)).
Qed.

(** Three colours, three tags.  A tag table whose colours all pass the
    validation of the field and which meets the uniqueness constraint on
    the colour holds at most three tags; and once it holds three, every
    further tag with a valid colour collides with a stored one. *)
Theorem at_most_three_tags (table : gmap Z Tag.t) :
  (forall i a, table !! i = Some a ->
               Tag.validate_color (Tag.color a) = None) ->
  Tag.unique_on Tag.color table ->
  (size table <= 3)%nat
  /\ (size table = 3%nat ->
      forall new : Tag.t,
        Tag.validate_color (Tag.color new) = None ->
        exists i a, table !! i = Some a /\ Tag.color a = Tag.color new).
Proof.
  intros Hvalid Hunique.
  set (colors := (fun x : Z * Tag.t => Tag.color x.2) <$> map_to_list table).
  assert (NoDup colors) as Hnodup.
  { apply NoDup_fmap_2_strong; [|apply NoDup_map_to_list].
    intros [i a] [j b] Hi Hj Hc. cbn [snd] in Hc.
    apply elem_of_map_to_list in Hi, Hj.
    assert (i = j) as -> by (by apply (Hunique i j a b)).
    rewrite Hi in Hj. by injection Hj as ->. }
  assert (colors ⊆+ Tag.COLOR_CHOICES.*1) as Hsub.
  { apply NoDup_submseteq; [done|]. intros c Hc.
    apply list_elem_of_fmap_1 in Hc as ([i a] & -> & Hia).
    apply elem_of_map_to_list in Hia.
    by apply validate_color_choice, (Hvalid i). }
  assert (size table = length colors) as Hsize.
  { unfold colors. by rewrite length_fmap, length_map_to_list. }
  split.
  - rewrite Hsize. apply submseteq_length in Hsub. exact Hsub.
  - intros Hthree new Hnew.
    assert (colors ≡ₚ Tag.COLOR_CHOICES.*1) as Hperm.
    { apply submseteq_length_Permutation; [done|].
      rewrite <- Hsize, Hthree. reflexivity. }
    apply validate_color_choice in Hnew. rewrite <- Hperm in Hnew.
    apply list_elem_of_fmap_1 in Hnew as ([i a] & Hc & Hia).
    apply elem_of_map_to_list in Hia. by exists i, a.
Qed.

Lemma at_most_three_tags_witness :
  (size MoreExamples.three_tags <= 3)%nat
  /\ exists i a, MoreExamples.three_tags !! i = Some a
                 /\ Tag.color a = Tag.GREEN.
Proof.
  assert (map_to_list MoreExamples.three_tags
          = [ (3, {| Tag.name := "dinner"; Tag.color := Tag.PURPLE;
                     Tag.slug := "dinner" |});
              (2, {| Tag.name := "lunch"; Tag.color := Tag.GREEN;
                     Tag.slug := "lunch" |});
              (1, {| Tag.name := "breakfast"; Tag.color := Tag.ORANGE;
                     Tag.slug := "breakfast" |}) ]) as Hlist.
  { vm_compute. reflexivity. }
  destruct (at_most_three_tags MoreExamples.three_tags) as [Hle Hfull].
  - intros i a Hia. apply elem_of_map_to_list in Hia. rewrite Hlist in Hia.
    repeat (apply elem_of_cons in Hia as [[= -> ->]|Hia]; [reflexivity|]).
    by apply elem_of_nil in Hia.
  - intros i j a b Hi Hj Hc.
    apply elem_of_map_to_list in Hi, Hj. rewrite Hlist in Hi, Hj.
    repeat (apply elem_of_cons in Hi as [[= -> ->]|Hi]);
      try (by apply elem_of_nil in Hi);
      repeat (apply elem_of_cons in Hj as [[= -> ->]|Hj]);
      try (by apply elem_of_nil in Hj);
      first [reflexivity | discriminate Hc].
  - split; [exact Hle|].
    apply (Hfull eq_refl {| Tag.name := "supper"; Tag.color := Tag.GREEN;
                            Tag.slug := "supper" |}).
    reflexivity.
Defined.
